(** * Conversation session coordinator: a shallow embedding

    The client-side coordinator of the web application lives in four React
    components:

    - [ConversationMonitor]          (apps/web/components/ConversationMonitor.tsx)
    - [ConversationHistoryTab]       (apps/web/components/ConversationHistoryTab.tsx)
    - [SessionContinuityManager]     (apps/web/components/SessionContinuityManager.tsx)
    - [ConversationStatusIndicator]  (same file, second component)

    Every [async] handler is cut at its [await] points: the part that runs
    when the handler is called returns the new component state together
    with the effects it performed (requests sent, dialogs shown, timers
    armed, callbacks invoked); the part that runs when the awaited
    response arrives is a second function of that response.  A component
    is then a small machine whose events are user actions, timer ticks and
    response arrivals, so that every interleaving the event loop allows is
    a list of events.

    JavaScript numbers that count messages and tokens are integers ([Z]),
    added as doubles where the code adds them ([js_add]); percentages are
    rationals ([Q]).  A JSON object is the list of its
    entries, with distinct keys, in the order [Object.entries] enumerates
    them.  Parsed bodies are read at the types the components declare;
    the shapes on which a property read raises (a [null] body, a [null]
    summary) and a missing [providers] field are separate cases. *)

From Stdlib Require Import List String Ascii ZArith QArith Qminmax Bool Lia.
From Stdlib Require Import DecimalString.
Import ListNotations.

Open Scope string_scope.
Open Scope list_scope.

(* Comparisons of identifiers stay folded in goals. *)
Arguments String.eqb : simpl never.

(** ** JavaScript helpers *)

(** Template-literal rendering of an integer. *)
Definition string_of_Z (z : Z) : string :=
  NilZero.string_of_int (Z.to_int z).

(** [Array.prototype.join]. *)
Definition join (sep : string) (l : list string) : string :=
  String.concat sep l.

(** [s.includes(t)]: [t] occurs in [s]. *)
Fixpoint includes (t s : string) : bool :=
  String.prefix t s ||
  match s with
  | EmptyString => false
  | String _ s' => includes t s'
  end.

(** A non-empty string is truthy. *)
Definition truthy (s : string) : bool := negb (s =? "").

(** The double nearest to an integer, ties to the even significand:
    integers up to 2^53 in magnitude are doubles; beyond, 53 significant
    bits are kept. *)
Definition round_double (x : Z) : Z :=
  let a := Z.abs x in
  if (a <=? 9007199254740992)%Z then x
  else
    let k := (Z.log2 a - 52)%Z in
    let q := (a / 2 ^ k)%Z in
    let r := (a mod 2 ^ k)%Z in
    let half := (2 ^ (k - 1))%Z in
    let q' := if (r <? half)%Z then q
              else if (half <? r)%Z then (q + 1)%Z
              else if Z.even q then q else (q + 1)%Z in
    (Z.sgn x * (q' * 2 ^ k))%Z.

(** [a + b] on numbers that hold integers: the exact sum rounded to a
    double (sums that overflow the doubles, about 1.8e308, are out of
    reach of message counts and not represented). *)
Definition js_add (a b : Z) : Z := round_double (a + b).

(** The members that every object literal inherits from
    [Object.prototype], each with the text [Array.prototype.join] prints
    for it (a native function as V8 prints it; [__proto__] is the
    prototype object itself). *)
Definition inherited_members : list (string * string) :=
  [ ("constructor", "function Object() { [native code] }");
    ("__defineGetter__", "function __defineGetter__() { [native code] }");
    ("__defineSetter__", "function __defineSetter__() { [native code] }");
    ("hasOwnProperty", "function hasOwnProperty() { [native code] }");
    ("__lookupGetter__", "function __lookupGetter__() { [native code] }");
    ("__lookupSetter__", "function __lookupSetter__() { [native code] }");
    ("isPrototypeOf", "function isPrototypeOf() { [native code] }");
    ("propertyIsEnumerable", "function propertyIsEnumerable() { [native code] }");
    ("toString", "function toString() { [native code] }");
    ("valueOf", "function valueOf() { [native code] }");
    ("__proto__", "[object Object]");
    ("toLocaleString", "function toLocaleString() { [native code] }") ].

(** Reading an inherited member through [object[key]]. *)
Definition inherited (key : string) : option string :=
  option_map snd (find (fun m => fst m =? key) inherited_members).

(** ** Requests, responses and effects *)

Inductive method := GET | POST | DELETE.

(** The paths under [${API_BASE}/api/conversation/${projectId}/]. *)
Inductive endpoint :=
| EProviders
| ESummary (provider : string)
| EStats
| EHistory (provider : string)
| EResetAll.

Record request := mkRequest
  { req_method : method;
    req_project : string;
    req_endpoint : endpoint }.

(** What [await fetch(...)] followed by [await response.json()] can give:
    the fetch rejects, or a response arrives with its [ok] flag; the body
    is [None] when [response.json()] rejects. *)
Inductive fetch_result (B : Type) :=
| NetworkError
| Response (ok : bool) (body : option B).
Arguments NetworkError {B}.
Arguments Response {B} ok body.

Inductive effect :=
| Fetch (r : request)
| Confirm (message : string) (answer : bool)
| Alert (message : string)
| ConsoleError (message : string)
| SetTimeout (ms : Z).

Definition is_confirm (e : effect) : bool :=
  match e with Confirm _ _ => true | _ => false end.


Definition requests (es : list effect) : list request :=
  flat_map (fun e => match e with Fetch r => [r] | _ => [] end) es.

(** ** ConversationMonitor *)

Module Monitor.

Record ConversationStats := mkStats
  { provider : string;
    total_messages : Z;
    estimated_tokens : Z;
    context_window : Z;
    usage_percentage : Q;
    optimization_applied : bool;
    last_optimization : option string }.

(** The [providers] field of the parsed body, as [data.providers]
    reads it. *)
Inductive providers_field :=
| FieldMissing
| FieldNull
| FieldArray (l : list ConversationStats).

(** The parsed body of the stats response.  Reading a property of
    [null] raises a TypeError. *)
Inductive stats_body :=
| BodyNull
| BodyObject (providers : providers_field).

(** [data.providers || []] *)
Definition providers_or_empty (f : providers_field) : list ConversationStats :=
  match f with
  | FieldArray l => l
  | FieldMissing | FieldNull => []
  end.

Definition load_failed : effect :=
  ConsoleError "Failed to load conversation stats:".

(** [loadConversationStats], from the arrival of the response on: the
    value of [stats] afterwards and what was logged.  The whole body of
    the function is inside [try], so every exception ends in the
    [catch]. *)
Definition loadConversationStats
    (r : fetch_result stats_body) (stats : list ConversationStats)
  : list ConversationStats * list effect :=
  match r with
  | NetworkError => (stats, [load_failed])
  | Response false _ => (stats, [])
  | Response true None => (stats, [load_failed])
  | Response true (Some BodyNull) => (stats, [load_failed])
  | Response true (Some (BodyObject f)) => (providers_or_empty f, [])
  end.

(** [setStats] is reached. *)
Definition replaces_snapshot (r : fetch_result stats_body) : bool :=
  match r with
  | Response true (Some (BodyObject _)) => true
  | _ => false
  end.

(** *** The overview row *)

(** [stats.filter(s => s.total_messages > 0).length] *)
Definition activeModels (stats : list ConversationStats) : nat :=
  List.length (filter (fun s => (0 <? total_messages s)%Z) stats).

(** [if (stats.length === 0) return null] *)
Definition renders (stats : list ConversationStats) : bool :=
  negb (Nat.eqb (List.length stats) 0).

(** *** The progress bar *)

(** [Math.min(stat.usage_percentage, 100)], the width of the bar in
    percent. *)
Definition barWidth (s : ConversationStats) : Q :=
  Qmin (usage_percentage s) 100.

(** The figure printed next to the bar is [stat.usage_percentage]
    itself (one decimal). *)
Definition shownUsage (s : ConversationStats) : Q := usage_percentage s.

(** *** The component as a machine

    [projectId] is the prop, [stats] and [isVisible] are the state
    hooks, [interval] is the timer owned by the current effect (it
    remembers the project its callback closes over), [mounted] tells
    whether the instance still exists.

    The code attaches nothing to a request.  To speak about issuance
    order the machine numbers the requests as they leave ([issued]),
    remembers which are still unanswered ([inflight], with the project
    each was sent for) and records the numbers of the responses that
    reached [setStats], newest first ([applied]).  [inflight] only says
    which responses can still arrive; no transition lets the number of
    a request decide what happens to [stats]. *)
Record View := mkView
  { projectId : string;
    stats : list ConversationStats;
    isVisible : bool;
    interval : option string;
    mounted : bool;
    issued : nat;
    inflight : list (nat * string);
    applied : list nat }.

Inductive event :=
| SetProject (p : string)
| Tick
| Arrive (seq : nat) (r : fetch_result stats_body)
| ToggleDetails
| Unmount.

(** A call of [loadConversationStats] from the closure of project [p]. *)
Definition issue (p : string) (v : View) : View :=
  mkView (projectId v) (stats v) (isVisible v) (interval v) (mounted v)
         (S (issued v)) (inflight v ++ [(issued v, p)]) (applied v).

(** The body of [useEffect(..., [projectId])]. *)
Definition runEffect (p : string) (v : View) : View :=
  if truthy p then
    let v' := issue p v in
    mkView (projectId v') (stats v') (isVisible v') (Some p) (mounted v')
           (issued v') (inflight v') (applied v')
  else v.

(** The cleanup the effect returned: [clearInterval(interval)]. *)
Definition cleanup (v : View) : View :=
  mkView (projectId v) (stats v) (isVisible v) None (mounted v)
         (issued v) (inflight v) (applied v).

Definition mount (p : string) : View :=
  runEffect p (mkView p [] false None true 0 [] []).

Definition lookup_inflight (n : nat) (v : View) : option string :=
  option_map snd (find (fun q => Nat.eqb (fst q) n) (inflight v)).

Definition answered (n : nat) (l : list (nat * string)) : list (nat * string) :=
  filter (fun q => negb (Nat.eqb (fst q) n)) l.

Definition step (v : View) (e : event) : View :=
  match e with
  | SetProject p =>
      if mounted v && negb (p =? projectId v) then
        let v' := cleanup v in
        runEffect p (mkView p (stats v') (isVisible v') (interval v')
                            (mounted v') (issued v') (inflight v') (applied v'))
      else v
  | Tick =>
      match interval v with
      | Some p => issue p v
      | None => v
      end
  | Arrive n r =>
      match lookup_inflight n v with
      | None => v
      | Some _ =>
          if mounted v then
            mkView (projectId v) (fst (loadConversationStats r (stats v)))
                   (isVisible v) (interval v) (mounted v) (issued v)
                   (answered n (inflight v))
                   (if replaces_snapshot r then n :: applied v else applied v)
          else
            (* the instance is gone: React drops the state update *)
            mkView (projectId v) (stats v) (isVisible v) (interval v)
                   (mounted v) (issued v) (answered n (inflight v)) (applied v)
      end
  | ToggleDetails =>
      if mounted v then
        mkView (projectId v) (stats v) (negb (isVisible v)) (interval v)
               (mounted v) (issued v) (inflight v) (applied v)
      else v
  | Unmount =>
      let v' := cleanup v in
      mkView (projectId v') (stats v') (isVisible v') (interval v') false
             (issued v') (inflight v') (applied v')
  end.

Definition run (v : View) (evs : list event) : View :=
  fold_left step evs v.

End Monitor.

(** ** ConversationHistoryTab *)

Module HistoryTab.

Record ConversationSummary := mkSummary
  { total_messages : Z;
    user_messages : Z;
    assistant_messages : Z;
    has_system_prompt : bool;
    provider : string }.

Record ProviderInfo := mkInfo
  { active : bool;
    summary : option ConversationSummary }.

(** An entry of the [PROVIDERS] table; [icon] and [color] only feed the
    markup and are left out. *)
Record provider_entry := mkProvider
  { id : string;
    name : string }.

Definition PROVIDERS : list provider_entry :=
  [ mkProvider "deepseek" "DeepSeek";
    mkProvider "qwen" "Qwen";
    mkProvider "kimi" "Kimi";
    mkProvider "doubao" "Doubao" ].

(** [PROVIDERS.find(p => p.id === provider)?.name] *)
Definition provider_name (provider : string) : option string :=
  option_map name (find (fun p => id p =? provider) PROVIDERS).

(** An optional string inside a template literal. *)
Definition show (o : option string) : string :=
  match o with Some s => s | None => "undefined" end.

(** The records of the service for each provider,
    [Record<string, ProviderInfo>]. *)
Definition providers_map := list (string * ProviderInfo).

(** [providersInfo[key]] *)
Definition lookup (key : string) (m : providers_map) : option ProviderInfo :=
  option_map snd (find (fun e => fst e =? key) m).

Inductive status := idle | success | error.

Record State := mkState
  { providersInfo : providers_map;
    isLoading : bool;
    clearingProvider : option string;
    actionStatus : status }.

Definition setProvidersInfo (m : providers_map) (s : State) : State :=
  mkState m (isLoading s) (clearingProvider s) (actionStatus s).
Definition setIsLoading (b : bool) (s : State) : State :=
  mkState (providersInfo s) b (clearingProvider s) (actionStatus s).
Definition setClearingProvider (o : option string) (s : State) : State :=
  mkState (providersInfo s) (isLoading s) o (actionStatus s).
Definition setActionStatus (a : status) (s : State) : State :=
  mkState (providersInfo s) (isLoading s) (clearingProvider s) a.

Definition nl : string := String (ascii_of_nat 10) "".

(** *** loadProvidersInfo *)

Definition loadProvidersInfo_call (projectId : string) (s : State)
  : State * list effect :=
  (setIsLoading true s, [Fetch (mkRequest GET projectId EProviders)]).

Definition loadProvidersInfo_return
    (r : fetch_result providers_map) (s : State) : State * list effect :=
  match r with
  | Response true (Some data) =>
      (setIsLoading false (setProvidersInfo data s), [])
  | Response false _ =>
      (setIsLoading false s, [ConsoleError "Failed to load providers info"])
  | Response true None | NetworkError =>
      (setIsLoading false s, [ConsoleError "Error loading providers info:"])
  end.

(** *** clearConversationHistory *)

Definition clear_question (provider : string) : string :=
  "Are you sure you want to clear the conversation history for "
  ++ show (provider_name provider) ++ "? This action cannot be undone.".

(** Up to the [await fetch]; [answer] is what [confirm] returns. *)
Definition clearConversationHistory_call
    (projectId provider : string) (answer : bool) (s : State)
  : State * list effect :=
  if answer then
    (setClearingProvider (Some provider) s,
     [Confirm (clear_question provider) true;
      Fetch (mkRequest DELETE projectId (EHistory provider))])
  else (s, [Confirm (clear_question provider) false]).

(** From the response of the DELETE up to the next suspension: on
    success the handler calls [loadProvidersInfo] and waits for it,
    otherwise it runs to its end. *)
Definition clearConversationHistory_response
    (projectId : string) (r : fetch_result providers_map) (s : State)
  : State * list effect :=
  match r with
  | Response true _ =>
      loadProvidersInfo_call projectId (setActionStatus success s)
  | Response false _ =>
      (setClearingProvider None (setActionStatus error s), [SetTimeout 3000])
  | NetworkError =>
      (setClearingProvider None (setActionStatus error s),
       [ConsoleError "Error clearing conversation history:"; SetTimeout 3000])
  end.

(** After [await loadProvidersInfo()]: the timer, then [finally]. *)
Definition clearConversationHistory_tail (s : State) : State * list effect :=
  (setClearingProvider None s, [SetTimeout 2000]).

(** *** resetAllConversations *)

(** [Object.entries(providersInfo).filter(([_, info]) => info.active)
      .map(([provider, _]) => PROVIDERS.find(p => p.id === provider)?.name)
      .filter(Boolean)] *)
Definition activeProviders (m : providers_map) : list string :=
  flat_map (fun o => match o with
                     | Some n => if truthy n then [n] else []
                     | None => []
                     end)
    (map (fun e => provider_name (fst e))
       (filter (fun e => active (snd e)) m)).

Definition nothing_to_clear : effect :=
  Alert "No active conversation history to clear.".

Definition reset_question (names : list string) : string :=
  "Are you sure you want to clear conversation history for all "
  ++ string_of_Z (Z.of_nat (List.length names)) ++ " models?" ++ nl ++ nl
  ++ "Including: " ++ join ", " names ++ nl ++ nl
  ++ "This action cannot be undone.".

Definition resetAllConversations_call
    (projectId : string) (answer : bool) (s : State) : State * list effect :=
  let names := activeProviders (providersInfo s) in
  if Nat.eqb (List.length names) 0 then (s, [nothing_to_clear])
  else if answer then
    (setIsLoading true s,
     [Confirm (reset_question names) true;
      Fetch (mkRequest POST projectId EResetAll)])
  else (s, [Confirm (reset_question names) false]).

(** From the response of the POST on; the body is parsed
    ([await response.json()]) before anything else happens. *)
Definition resetAllConversations_response
    (projectId : string) (r : fetch_result providers_map) (s : State)
  : State * list effect :=
  match r with
  | Response true (Some _) =>
      loadProvidersInfo_call projectId (setActionStatus success s)
  | Response false _ =>
      (setIsLoading false (setActionStatus error s), [SetTimeout 3000])
  | Response true None | NetworkError =>
      (setIsLoading false (setActionStatus error s),
       [ConsoleError "Error resetting all conversations:"; SetTimeout 3000])
  end.

Definition resetAllConversations_tail (s : State) : State * list effect :=
  (setIsLoading false s, [SetTimeout 2000]).

(** *** The [disabled] attributes of the three kinds of button *)

Definition refresh_disabled (s : State) : bool := isLoading s.

(** [isLoading || Object.values(providersInfo).every(info => !info.active)] *)
Definition clearAll_disabled (s : State) : bool :=
  isLoading s || forallb (fun e => negb (active (snd e))) (providersInfo s).

(** [isLoading || isClearing || !info?.active] for the row of [p]. *)
Definition clearOne_disabled (p : string) (s : State) : bool :=
  isLoading s
  || match clearingProvider s with Some c => c =? p | None => false end
  || negb match lookup p (providersInfo s) with
          | Some info => active info
          | None => false
          end.

(** A row, and so a clear button, exists for the entries of the table
    only. *)
Definition has_row (p : string) : bool :=
  existsb (fun e => id e =? p) PROVIDERS.

(** *** The component as a machine

    [pending] holds the requests that have not been answered, each with
    the handler that is suspended on it; [log] collects the effects in
    the order they happened.  A handler keeps the [projectId] of the
    render it was created in, which is the project of its request. *)

(** What runs after a [loadProvidersInfo] has returned. *)
Inductive awaiter := Nobody | ClearOneTail | ResetAllTail.

(** The handler suspended on a request. *)
Inductive suspended :=
| InLoad (a : awaiter)
| InClearOne
| InResetAll.

Record Tab := mkTab
  { projectId : string;
    state : State;
    pending : list (nat * (request * suspended));
    sent : nat;
    log : list effect }.

Inductive event :=
| SetProject (p : string)
| ClickRefresh
| ClickClearAll (answer : bool)
| ClickClearOne (p : string) (answer : bool)
| Arrive (n : nat) (r : fetch_result providers_map)
| StatusTimeout.

(** Record the outcome of a piece of handler: the new state, the
    effects, and the suspension [k] under which every request among the
    effects is filed. *)
Definition commit (k : suspended) (out : State * list effect) (t : Tab) : Tab :=
  let '(s, es) := out in
  let rs := requests es in
  mkTab (projectId t) s
        (pending t ++ combine (seq (sent t) (List.length rs))
                              (map (fun r => (r, k)) rs))
        (sent t + List.length rs)
        (log t ++ es).

Definition lookup_pending (n : nat) (t : Tab) : option (request * suspended) :=
  option_map snd (find (fun q => Nat.eqb (fst q) n) (pending t)).

Definition answered (n : nat) (t : Tab) : Tab :=
  mkTab (projectId t) (state t)
        (filter (fun q => negb (Nat.eqb (fst q) n)) (pending t))
        (sent t) (log t).

(** [useEffect(() => { loadProvidersInfo() }, [projectId])] *)
Definition mount (p : string) : Tab :=
  commit (InLoad Nobody)
         (loadProvidersInfo_call p (mkState [] false None idle))
         (mkTab p (mkState [] false None idle) [] 0 []).

Definition resume (req : request) (k : suspended)
    (r : fetch_result providers_map) (t : Tab) : Tab :=
  match k with
  | InLoad a =>
      let t1 := commit (InLoad Nobody) (loadProvidersInfo_return r (state t)) t in
      match a with
      | Nobody => t1
      | ClearOneTail =>
          commit (InLoad Nobody) (clearConversationHistory_tail (state t1)) t1
      | ResetAllTail =>
          commit (InLoad Nobody) (resetAllConversations_tail (state t1)) t1
      end
  | InClearOne =>
      commit (InLoad ClearOneTail)
             (clearConversationHistory_response (req_project req) r (state t)) t
  | InResetAll =>
      commit (InLoad ResetAllTail)
             (resetAllConversations_response (req_project req) r (state t)) t
  end.

Definition step (t : Tab) (e : event) : Tab :=
  match e with
  | SetProject p =>
      if p =? projectId t then t
      else
        let t' := mkTab p (state t) (pending t) (sent t) (log t) in
        commit (InLoad Nobody) (loadProvidersInfo_call p (state t')) t'
  | ClickRefresh =>
      if refresh_disabled (state t) then t
      else commit (InLoad Nobody) (loadProvidersInfo_call (projectId t) (state t)) t
  | ClickClearAll answer =>
      if clearAll_disabled (state t) then t
      else commit InResetAll
             (resetAllConversations_call (projectId t) answer (state t)) t
  | ClickClearOne p answer =>
      if negb (has_row p) || clearOne_disabled p (state t) then t
      else commit InClearOne
             (clearConversationHistory_call (projectId t) p answer (state t)) t
  | Arrive n r =>
      match lookup_pending n t with
      | None => t
      | Some (req, k) => resume req k r (answered n t)
      end
  | StatusTimeout =>
      (* [() => setActionStatus('idle')] *)
      if existsb (fun e => match e with SetTimeout _ => true | _ => false end) (log t)
      then mkTab (projectId t) (setActionStatus idle (state t))
                 (pending t) (sent t) (log t)
      else t
  end.

Definition run (t : Tab) (evs : list event) : Tab := fold_left step evs t.


End HistoryTab.

(** ** SessionContinuityManager *)

Module Continuity.

Record Summary := mkSummary
  { total_messages : Z;
    user_messages : Z;
    assistant_messages : Z;
    has_system_prompt : bool }.

(** An entry of [ConversationState].  The interface declares [summary]
    as an object; the same endpoint is typed with [summary] nullable in
    ConversationHistoryTab, so [None] stands for a [null] the service
    may send. *)
Record Info := mkInfo
  { active : bool;
    summary : option Summary }.

Definition ConversationState := list (string * Info).

Record SessionInfo := mkSession
  { hasActiveConversation : bool;
    providers : list string;
    lastActivity : string;
    messageCount : Z }.

(** The two optional callbacks of the props: is one supplied? *)
Record Props := mkProps
  { onSessionRestore : bool;
    onConversationLoaded : bool }.

Record State := mkState
  { sessionInfo : option SessionInfo;
    isLoading : bool;
    showStatus : bool;
    statusMessage : string }.

Definition initial : State := mkState None true false "".

(** What the flow does to the outside. *)
Inductive notice :=
| SessionRestore (info : SessionInfo)
| ConversationLoaded (hasConversation : bool)
| Logged (message : string)
| HideAfter (ms : Z).

(** [providerNames[provider] || provider], as the text it contributes
    to the banner: the name of the table for its four keys; for a key
    that names a member of [Object.prototype] the lookup finds that
    member, which is truthy, and [join] prints it; any other key is
    shown as it is. *)
Definition formatProviderName (provider : string) : string :=
  if provider =? "deepseek" then "DeepSeek"
  else if provider =? "qwen" then "通义千问"
  else if provider =? "kimi" then "Kimi"
  else if provider =? "doubao" then "豆包"
  else match inherited provider with
       | Some text => text
       | None => provider
       end.

(** [info.summary.total_messages]; [None] is the TypeError raised on a
    [null] summary. *)
Definition summary_total (info : Info) : option Z :=
  option_map total_messages (summary info).

(** [info.active && info.summary.total_messages > 0] *)
Definition restorable (info : Info) : option bool :=
  if active info
  then option_map (fun n => (0 <? n)%Z) (summary_total info)
  else Some false.

(** [Object.entries(data).filter(...).map(([provider, _]) => provider)] *)
Fixpoint activeProviders (data : ConversationState) : option (list string) :=
  match data with
  | [] => Some []
  | (p, info) :: rest =>
      match restorable info with
      | None => None
      | Some keep =>
          match activeProviders rest with
          | None => None
          | Some ps => Some (if keep then p :: ps else ps)
          end
      end
  end.

(** [Object.values(data).filter(info => info.active)
      .reduce((sum, info) => sum + info.summary.total_messages, 0)] *)
Definition totalMessages (data : ConversationState) : option Z :=
  fold_left
    (fun sum info =>
       match sum, summary_total info with
       | Some a, Some n => Some (js_add a n)
       | _, _ => None
       end)
    (filter active (map snd data)) (Some 0%Z).

Definition restored_message (names : list string) (total : Z) : string :=
  "已恢复与 " ++ join "、" names ++ " 的对话历史 ("
  ++ string_of_Z total ++ "条消息)".

Definition when (b : bool) (n : notice) : list notice :=
  if b then [n] else [].

Definition check_failed : notice :=
  Logged "Failed to check existing conversations:".

(** The [catch] block followed by [finally]. *)
Definition caught (props : Props) (s : State) : State * list notice :=
  (mkState (sessionInfo s) false (showStatus s) (statusMessage s),
   check_failed :: when (onConversationLoaded props) (ConversationLoaded false)).

(** [checkAndRestoreConversations] from the arrival of the response on
    ([setIsLoading(true)] has run before the [await]); [now] is
    [new Date().toISOString()]. *)
Definition checkAndRestoreConversations
    (props : Props) (now : string)
    (r : fetch_result ConversationState) (s : State) : State * list notice :=
  match r with
  | NetworkError => caught props s
  | Response false _ =>
      (mkState (sessionInfo s) false (showStatus s) (statusMessage s), [])
  | Response true None => caught props s
  | Response true (Some data) =>
      match activeProviders data with
      | None => caught props s
      | Some [] =>
          (mkState (sessionInfo s) false (showStatus s) (statusMessage s),
           when (onConversationLoaded props) (ConversationLoaded false))
      | Some ps =>
          match totalMessages data with
          | None => caught props s
          | Some total =>
              let info := mkSession true ps now total in
              (mkState (Some info) false true
                       (restored_message (map formatProviderName ps) total),
               when (onSessionRestore props) (SessionRestore info)
               ++ [HideAfter 3000]
               ++ when (onConversationLoaded props) (ConversationLoaded true))
          end
      end
  end.

(** The banner is drawn when the loading indicator is not and
    [showStatus && sessionInfo] holds. *)
Definition banner (s : State) : option string :=
  if negb (isLoading s) && showStatus s then
    match sessionInfo s with
    | Some _ => Some (statusMessage s)
    | None => None
    end
  else None.

End Continuity.

(** ** ConversationStatusIndicator *)

Module Indicator.

Record ConversationSummary := mkSummary
  { total_messages : Z;
    user_messages : Z;
    assistant_messages : Z;
    provider : string }.

Record Props := mkProps
  { projectId : string;
    activeProvider : option string }.

Record State := mkState
  { summary : option ConversationSummary;
    isVisible : bool }.

(** The pill, and with it the clear button, is drawn unless
    [!isVisible || !summary || summary.total_messages === 0]. *)
Definition drawn (s : State) : bool :=
  isVisible s &&
  match summary s with
  | Some sm => negb (total_messages sm =? 0)%Z
  | None => false
  end.

(** The parsed body of the summary response: an object of the
    declared type, or [null]. *)
Inductive summary_body :=
| SummaryNull
| SummaryObject (data : ConversationSummary).

Definition summary_failed : effect :=
  ConsoleError "Failed to load conversation summary:".

(** [loadConversationSummary] once the response is there.  On a [null]
    body [setSummary(data)] has run when [data.total_messages] raises,
    so the summary is dropped and [isVisible] keeps its value. *)
Definition loadConversationSummary
    (r : fetch_result summary_body) (s : State) : State * list effect :=
  match r with
  | Response true (Some (SummaryObject data)) =>
      (mkState (Some data) (0 <? total_messages data)%Z, [])
  | Response true (Some SummaryNull) =>
      (mkState None (isVisible s), [summary_failed])
  | Response false _ => (s, [])
  | Response true None | NetworkError => (s, [summary_failed])
  end.

(** The [onClick] of the clear button up to its [await fetch]. *)
Definition clearClick_call (props : Props) (s : State) : State * list effect :=
  (s, [Fetch (mkRequest DELETE (projectId props)
                (EHistory (HistoryTab.show (activeProvider props))))]).

(** The rest of the [onClick]: any response hides the pill. *)
Definition clearClick_return
    (r : fetch_result unit) (s : State) : State * list effect :=
  match r with
  | Response _ _ => (mkState None false, [])
  | NetworkError => (s, [ConsoleError "Failed to clear conversation:"])
  end.

End Indicator.

(** ** The specification's vocabulary *)

Module Spec.

(** The per-provider record of the specification's data model, which
    joins what the providers endpoint and the stats endpoint report. *)
Record ProviderConversationState := mkProviderState
  { providerId : string;
    active : bool;
    totalMessages : Z;
    userMessages : Z;
    assistantMessages : Z;
    hasSystemPrompt : bool;
    estimatedTokens : Z;
    contextWindow : Z;
    usagePercentage : Q;
    optimizationApplied : bool;
    lastOptimizationTimestamp : option string }.

(** count(p : state[p].active && state[p].totalMessages > 0) *)
Definition activeCount (snapshot : list ProviderConversationState) : nat :=
  List.length
    (filter (fun p => active p && (0 <? totalMessages p)%Z) snapshot).

(** The part of a provider's record that the stats endpoint carries and
    the monitor stores. *)
Definition stat_of (p : ProviderConversationState) : Monitor.ConversationStats :=
  Monitor.mkStats (providerId p) (totalMessages p) (estimatedTokens p)
                  (contextWindow p) (usagePercentage p)
                  (optimizationApplied p) (lastOptimizationTimestamp p).

(** Modelled from the spec: the conversation-history service, which
    computes [usage_percentage] before the client sees it, is not among
    the sources; the data model gives the rule
    usagePercentage = estimatedTokens / contextWindow * 100. *)
Definition derived_usage (estimatedTokens contextWindow : Z) : Q :=
  (inject_Z estimatedTokens / inject_Z contextWindow * 100)%Q.

(** A stats entry as the service sends it under that rule. *)
Definition served_stat (provider : string)
    (totalMessages estimatedTokens contextWindow : Z) : Monitor.ConversationStats :=
  Monitor.mkStats provider totalMessages estimatedTokens contextWindow
                  (derived_usage estimatedTokens contextWindow) false None.

End Spec.

(** ** Scenarios *)

Module Scenario.

Import Monitor.

Definition ok_stats (l : list ConversationStats) : fetch_result stats_body :=
  Response true (Some (BodyObject (FieldArray l))).

Definition older : list ConversationStats :=
  [ mkStats "deepseek" 2 400 64000 (5 # 8) false None ].

Definition newer : list ConversationStats :=
  [ mkStats "deepseek" 4 900 64000 (45 # 32) false None ].

(** The first tick fires while the request of the mount is unanswered;
    the answer to the tick's request overtakes the other. *)
Definition overtaken : list event :=
  [ Tick; Arrive 1 (ok_stats newer); Arrive 0 (ok_stats older) ].

(** A 2xx response whose body is an object without [providers]. *)
Definition no_providers : fetch_result stats_body :=
  Response true (Some (BodyObject FieldMissing)).

(** The view is moved from project "alpha" to project "beta" while the
    first request for "alpha" is unanswered. *)
Definition moved : View := run (mount "alpha") [ SetProject "beta" ].

Definition inactive_with_messages : Spec.ProviderConversationState :=
  Spec.mkProviderState "kimi" false 3 2 1 true 700 128000 (35 # 64) false None.

Definition overrun : ConversationStats :=
  Spec.served_stat "qwen" 40 48000 32000.

(** The providers endpoint reports one active provider. *)
Definition one_active : HistoryTab.providers_map :=
  [ ("deepseek",
     HistoryTab.mkInfo true (Some (HistoryTab.mkSummary 5 3 2 true "deepseek")));
    ("qwen", HistoryTab.mkInfo false None) ].


(** The only active provider is one the table does not list. *)
Definition unlisted_active : HistoryTab.State :=
  HistoryTab.mkState
    [ ("deepseek", HistoryTab.mkInfo false None);
      ("glm", HistoryTab.mkInfo true (Some (HistoryTab.mkSummary 7 4 3 true "glm"))) ]
    false None HistoryTab.idle.

(** The providers response of the restoration example. *)
Definition two_of_three (kimi : option Continuity.Summary)
    (u1 a1 u2 a2 : Z) (sp1 sp2 : bool) : Continuity.ConversationState :=
  [ ("deepseek", Continuity.mkInfo true (Some (Continuity.mkSummary 5 u1 a1 sp1)));
    ("qwen", Continuity.mkInfo true (Some (Continuity.mkSummary 3 u2 a2 sp2)));
    ("kimi", Continuity.mkInfo false kimi) ].

(** Every provider is inactive or has no message. *)
Definition none_restorable : Continuity.ConversationState :=
  [ ("deepseek", Continuity.mkInfo true (Some (Continuity.mkSummary 0 0 0 true)));
    ("qwen", Continuity.mkInfo false None) ].

Definition both_callbacks : Continuity.Props := Continuity.mkProps true true.

(** The first run of the flow on that response. *)
Definition restoration (now : string) (kimi : option Continuity.Summary)
    (u1 a1 u2 a2 : Z) (sp1 sp2 : bool) : Continuity.State * list Continuity.notice :=
  Continuity.checkAndRestoreConversations both_callbacks now
    (Response true (Some (two_of_three kimi u1 a1 u2 a2 sp1 sp2)))
    Continuity.initial.

(** The pill of the chat panel shows the five messages of deepseek. *)
Definition pill_props : Indicator.Props :=
  Indicator.mkProps "alpha" (Some "deepseek").

Definition pill_state : Indicator.State :=
  Indicator.mkState (Some (Indicator.mkSummary 5 3 2 "deepseek")) true.

End Scenario.

(** ** The claims, as predicates on the model *)

Module Claim.

Import Monitor.

Fixpoint decreasing (l : list nat) : bool :=
  match l with
  | a :: (b :: _) as rest => Nat.ltb b a && decreasing rest
  | _ => true
  end.

(** The discard law: the numbers of the applied responses only grow,
    that is, [applied] (newest first) is strictly decreasing. *)
Definition sequence_discard_law (p : string) (evs : list event) : Prop :=
  decreasing (applied (run (mount p) evs)) = true.

(** A response leaves the last-known snapshot in place. *)
Definition keeps_snapshot
    (r : fetch_result stats_body) (stats : list ConversationStats) : Prop :=
  fst (loadConversationStats r stats) = stats.

(** The stale-view guard: a response to a request that was sent for
    another project than the one the view shows now does not touch
    [stats]. *)
Definition ignores_stale
    (v : View) (n : nat) (r : fetch_result stats_body) : Prop :=
  forall q, lookup_inflight n v = Some q -> q <> projectId v ->
            stats (step v (Arrive n r)) = stats v.

(** The monitor's count is the specification's count. *)
Definition counts_active_with_messages
    (snapshot : list Spec.ProviderConversationState) : Prop :=
  activeModels (map Spec.stat_of snapshot) = Spec.activeCount snapshot.



(** A DELETE of a provider's history comes after a confirmation that
    the user accepted. *)
Fixpoint confirmed_deletes (es : list effect) (confirmed : bool) : bool :=
  match es with
  | [] => true
  | Confirm _ answer :: rest => confirmed_deletes rest answer
  | Fetch r :: rest =>
      match req_method r with
      | DELETE => confirmed && confirmed_deletes rest false
      | _ => confirmed_deletes rest confirmed
      end
  | _ :: rest => confirmed_deletes rest confirmed
  end.

(** The restoration flow tells its consumer that there is no active
    conversation. *)
Definition notifies_no_conversation (ns : list Continuity.notice) : Prop :=
  In (Continuity.ConversationLoaded false) ns.

End Claim.

(** ** ConversationMonitor: what the panel draws *)

Module MonitorRender.

Import Monitor.

(** [x < y] on numbers. *)
Definition lt (x y : Q) : bool := negb (Qle_bool y x).

Definition getUsageColor (percentage : Q) : string :=
  if lt percentage 50 then "text-green-600 dark:text-green-400"
  else if lt percentage 80 then "text-yellow-600 dark:text-yellow-400"
  else "text-red-600 dark:text-red-400".

Definition getUsageBarColor (percentage : Q) : string :=
  if lt percentage 50 then "bg-green-500"
  else if lt percentage 80 then "bg-yellow-500"
  else "bg-red-500".

(** [Math.max(...stats.map(s => s.usage_percentage))], the Max Usage
    figure before rounding; [None] is the [-Infinity] of an empty list,
    which is never drawn. *)
Definition maxUsage (stats : list ConversationStats) : option Q :=
  match map usage_percentage stats with
  | [] => None
  | x :: xs => Some (fold_left Qmax xs x)
  end.

(** [stats.some(s => s.usage_percentage > 80)], the condition of the
    High Context Usage tip. *)
Definition highUsage (stats : list ConversationStats) : bool :=
  existsb (fun s => lt 80 (usage_percentage s)) stats.

(** The snapshots that the responses among some events carry. *)
Fixpoint payloads (evs : list event) : list (list ConversationStats) :=
  match evs with
  | [] => []
  | Arrive _ (Response true (Some (BodyObject f))) :: rest =>
      providers_or_empty f :: payloads rest
  | _ :: rest => payloads rest
  end.

(** The periodic timer is the one of the project on screen, and there
    is none when the view is gone or has no project. *)
Definition timer_of_current_project (v : View) : Prop :=
  interval v = if mounted v && truthy (projectId v)
               then Some (projectId v) else None.

End MonitorRender.

(** ** ConversationHistoryTab: predicates on its runs *)

Module TabInvariant.

Import HistoryTab.

(** Is request [r] covered by the dialog answered just before it?
    [asked] is the question of that dialog when the user accepted it.  A
    DELETE needs the question that names its provider, and the provider
    must have a row; a reset-all needs an accepted question; reads need
    nothing. *)
Definition authorised (asked : option string) (r : request) : bool :=
  match req_method r, req_endpoint r with
  | GET, _ => true
  | DELETE, EHistory p =>
      has_row p &&
      match asked with Some q => q =? clear_question p | None => false end
  | POST, EResetAll =>
      match asked with Some _ => true | None => false end
  | _, _ => false
  end.

(** Every request of a log is authorised by the effect right before
    it. *)
Fixpoint mutations_confirmed (asked : option string) (es : list effect) : bool :=
  match es with
  | [] => true
  | Confirm q answer :: rest =>
      mutations_confirmed (if answer then Some q else None) rest
  | Fetch r :: rest => authorised asked r && mutations_confirmed None rest
  | _ :: rest => mutations_confirmed None rest
  end.

(** The suspended handlers that will clear [isLoading] when they go
    on, and those that will clear [clearingProvider]. *)
Definition clears_loading (k : suspended) : bool :=
  match k with
  | InLoad _ | InResetAll => true
  | InClearOne => false
  end.

Definition clears_mark (k : suspended) : bool :=
  match k with
  | InClearOne | InLoad ClearOneTail => true
  | _ => false
  end.

Definition waiting (f : suspended -> bool) (t : Tab) : bool :=
  existsb (fun q => f (snd (snd q))) (pending t).

(** A set flag has a suspended handler that will clear it. *)
Definition flags_explained (t : Tab) : Prop :=
  (isLoading (state t) = true -> waiting clears_loading t = true)
  /\ (clearingProvider (state t) <> None -> waiting clears_mark t = true).

(** Unanswered requests carry distinct numbers below [sent]. *)
Definition well_numbered (t : Tab) : Prop :=
  NoDup (map fst (pending t))
  /\ Forall (fun q => (fst q < sent t)%nat) (pending t).




(** What the handler that awaited [loadProvidersInfo] does next. *)
Definition after_load (a : awaiter) (s : State) : State * list effect :=
  match a with
  | Nobody => (s, [])
  | ClearOneTail => clearConversationHistory_tail s
  | ResetAllTail => resetAllConversations_tail s
  end.

End TabInvariant.

(** ** SessionContinuityManager: reading its outcome *)

Module FlowView.

Import Continuity.





(** How many times [onConversationLoaded] was called. *)
Definition times_loaded (ns : list notice) : nat :=
  List.length
    (filter (fun n => match n with ConversationLoaded _ => true | _ => false end) ns).


End FlowView.

(** ** The key-configuration script

    The script that asks for the API keys and rewrites [.env] (it is
    kept twice, in English and in Chinese; the comment lines written to
    the file are those of the English one).  Strings are UTF-8 bytes. *)

Module Configure.

Definition newline : ascii := ascii_of_nat 10.
Definition carriage_return : ascii := ascii_of_nat 13.
Definition equals_sign : ascii := ascii_of_nat 61.

(** UTF-16 code units that the character started by byte [c]
    contributes to [String.prototype.length]: one per character, two for
    a character outside the basic plane (a four-byte sequence), none for
    a continuation byte. *)
Definition code_units (c : ascii) : nat :=
  let n := nat_of_ascii c in
  if Nat.ltb n 128 then 1
  else if Nat.ltb n 192 then 0
  else if Nat.ltb n 240 then 1
  else 2.

(** [key.length] *)
Fixpoint js_length (s : string) : nat :=
  match s with
  | EmptyString => 0
  | String c s' => code_units c + js_length s'
  end.

Definition validateApiKey (provider key : string) : bool :=
  if negb (truthy key) then true
  else if provider =? "deepseek" then String.prefix "sk-" key
  else if provider =? "qwen" then String.prefix "sk-" key
  else if provider =? "kimi" then String.prefix "sk-" key
  else if provider =? "doubao" then Nat.ltb 10 (js_length key)
  else true.

(** The object [envVars]: its own properties in insertion order. *)
Definition env := list (string * string).

(** [envVars[key]] *)
Definition env_get (key : string) (e : env) : option string :=
  option_map snd (find (fun kv => fst kv =? key) e).

(** [envVars[key] = value]: an existing property keeps its place. *)
Fixpoint env_set (key value : string) (e : env) : env :=
  match e with
  | [] => [(key, value)]
  | (k, v) :: rest =>
      if k =? key then (key, value) :: rest
      else (k, v) :: env_set key value rest
  end.

(** [content.split('\n')] *)
Fixpoint split_lines (s : string) : list string :=
  match s with
  | EmptyString => [""]
  | String c s' =>
      if Ascii.eqb c newline then "" :: split_lines s'
      else match split_lines s' with
           | l :: ls => String c l :: ls
           | [] => [String c ""]
           end
  end.

(** The class [[A-Z_]]. *)
Definition key_char (c : ascii) : bool :=
  let n := nat_of_ascii c in
  (Nat.leb 65 n && Nat.leb n 90) || Nat.eqb n 95.

(** The longest prefix in [[A-Z_]*] and what follows it. *)
Fixpoint span_key (s : string) : string * string :=
  match s with
  | EmptyString => ("", "")
  | String c s' =>
      if key_char c
      then let '(k, rest) := span_key s' in (String c k, rest)
      else ("", s)
  end.

(** U+2028 and U+2029 in UTF-8. *)
Definition line_separator : string :=
  String (ascii_of_nat 226) (String (ascii_of_nat 128) (String (ascii_of_nat 168) "")).
Definition paragraph_separator : string :=
  String (ascii_of_nat 226) (String (ascii_of_nat 128) (String (ascii_of_nat 169) "")).

(** The second group of the pattern, any run of dots up to the end of
    the input: the rest holds no line terminator (the dot matches
    neither LF, CR, U+2028 nor U+2029). *)
Fixpoint dots (s : string) : bool :=
  match s with
  | EmptyString => true
  | String c s' =>
      negb (Ascii.eqb c newline) && negb (Ascii.eqb c carriage_return)
      && negb (String.prefix line_separator s)
      && negb (String.prefix paragraph_separator s)
      && dots s'
  end.

(** [line.match] with the pattern of the script (at the start one or
    more characters of [[A-Z_]], then [=], then dots up to the end),
    giving the two groups.  No character of the class is [=], so the
    first group can only be the longest prefix in the class. *)
Definition match_line (line : string) : option (string * string) :=
  match span_key line with
  | (String c k, String e v) =>
      if Ascii.eqb e equals_sign && dots v then Some (String c k, v) else None
  | _ => None
  end.

(** [readExistingEnv]; the argument is the content of [.env], [None]
    when the file does not exist. *)
Definition readExistingEnv (file : option string) : env :=
  match file with
  | None => []
  | Some content =>
      fold_left
        (fun e line =>
           match match_line line with
           | Some (k, v) => env_set k v e
           | None => e
           end)
        (split_lines content) []
  end.

Definition provider_vars : list string :=
  ["DEEPSEEK_API_KEY"; "QWEN_API_KEY"; "KIMI_API_KEY"; "DOUBAO_API_KEY"].

Definition is_provider_var (key : string) : bool :=
  existsb (String.eqb key) provider_vars.

(** The three lines pushed for a provider whose key is set and not
    empty. *)
Definition key_lines (comment var : string) (e : env) : list string :=
  match env_get var e with
  | Some v => if truthy v then [comment; (var ++ "=" ++ v)%string; ""] else []
  | None => []
  end.

(** [Object.keys(envVars).filter(key => !([...].includes(key)))] *)
Definition otherKeys (e : env) : list string :=
  filter (fun k => negb (is_provider_var k)) (map fst e).

Definition other_lines (e : env) : list string :=
  if Nat.eqb (List.length (otherKeys e)) 0 then []
  else [ "# ===========================================";
         "# Other Configuration";
         "# ===========================================";
         "" ]
       ++ map (fun k => (k ++ "=" ++ HistoryTab.show (env_get k e))%string)
             (otherKeys e).

Definition env_lines (e : env) : list string :=
  [ "# Claudable Environment Variables";
    "# Auto-generated configuration file";
    "";
    "# ===========================================";
    "# Domestic AI Model API Configuration";
    "# ===========================================";
    "" ]
  ++ key_lines "# DeepSeek API Configuration" "DEEPSEEK_API_KEY" e
  ++ key_lines "# Qwen API Configuration" "QWEN_API_KEY" e
  ++ key_lines "# Kimi API Configuration" "KIMI_API_KEY" e
  ++ key_lines "# Doubao API Configuration" "DOUBAO_API_KEY" e
  ++ other_lines e.

(** [writeEnvFile]: the content written to [.env]. *)
Definition writeEnvFile (e : env) : string :=
  join (String newline "") (env_lines e).

(** One prompt of [main] for deepseek, qwen or kimi; [answer] is what
    [askQuestion] resolved to (the trimmed line). *)
Definition promptKey (provider var answer : string) (e : env) : env :=
  if truthy answer && negb (validateApiKey provider answer) then e
  else if truthy answer then env_set var answer e
  else e.

(** The prompt for doubao, which does not call [validateApiKey]. *)
Definition promptDoubao (answer : string) (e : env) : env :=
  if truthy answer then env_set "DOUBAO_API_KEY" answer e else e.

(** [main], from [readExistingEnv] to [writeEnvFile]: the content it
    writes, given the content of the file it found and the four answers.
    The lines it prints on the console are left out. *)
Definition main (file : option string)
    (deepseekKey qwenKey kimiKey doubaoKey : string) : string :=
  writeEnvFile
    (promptDoubao doubaoKey
       (promptKey "kimi" "KIMI_API_KEY" kimiKey
          (promptKey "qwen" "QWEN_API_KEY" qwenKey
             (promptKey "deepseek" "DEEPSEEK_API_KEY" deepseekKey
                (readExistingEnv file))))).

(** *** Well-formed environments *)

Fixpoint all_chars (f : ascii -> bool) (s : string) : bool :=
  match s with
  | EmptyString => true
  | String c s' => f c && all_chars f s'
  end.

(** A name the pattern of [readExistingEnv] accepts. *)
Definition valid_key (k : string) : bool := truthy k && all_chars key_char k.

(** Distinct valid names, values on one line. *)
Definition wf_env (e : env) : Prop :=
  NoDup (map fst e)
  /\ Forall (fun kv => valid_key (fst kv) = true /\ dots (snd kv) = true) e.

(** The order in which [writeEnvFile] lays the settings out: the
    provider keys that are set and not empty, then the others. *)
Definition provider_part (e : env) (vars : list string) : env :=
  flat_map (fun var => match env_get var e with
                       | Some v => if truthy v then [(var, v)] else []
                       | None => []
                       end) vars.

Definition laid_out (e : env) : env :=
  provider_part e provider_vars
  ++ filter (fun kv => negb (is_provider_var (fst kv))) e.

(** The string holds no line feed. *)
Definition one_line (s : string) : bool :=
  all_chars (fun c => negb (Ascii.eqb c newline)) s.

(** The settings found on some lines, in order. *)
Definition parsed (lines : list string) : env :=
  flat_map (fun l => match match_line l with
                     | Some kv => [kv]
                     | None => []
                     end) lines.

(** Every line ends with a carriage return, as in a file with CRLF
    line ends (the piece after the last LF may be empty). *)
Definition crlf_line (l : string) : Prop :=
  l = "" \/ exists l', l = (l' ++ String carriage_return "")%string.

End Configure.

(** * Properties *)

Section MonitorFacts.

Import Monitor Claim.

(** ** Responses are applied in arrival order *)

Lemma arrive_mounted v n r q :
  mounted v = true ->
  lookup_inflight n v = Some q ->
  step v (Arrive n r) =
  mkView (projectId v) (fst (loadConversationStats r (stats v)))
         (isVisible v) (interval v) true (issued v)
         (answered n (inflight v))
         (if replaces_snapshot r then n :: applied v else applied v).
Proof.
  intros Hm Hq. simpl. rewrite Hq, Hm. reflexivity.
Qed.

Example overtaken_applied :
  applied (run (mount "demo") Scenario.overtaken) = [0; 1]%nat.
Proof. reflexivity. Qed.

Example overtaken_stats :
  stats (run (mount "demo") Scenario.overtaken) = Scenario.older.
Proof. reflexivity. Qed.

(** C1, counterexample: the request of the mount (number 0) is answered
    after the request of the first tick (number 1); the late answer is
    applied and the Store ends with the older snapshot. *)
Lemma C1_counterexample :
  ~ sequence_discard_law "demo" Scenario.overtaken.
Proof.
  unfold sequence_discard_law. rewrite overtaken_applied. simpl. discriminate.
Qed.

(** C1, amended: requests carry no sequence number and nothing is
    discarded by age: whenever a 2xx response with a parsed object body
    arrives at a mounted view, [stats] becomes the [providers] of that
    response (or the empty list), whatever the number of its request
    and whatever has been applied before. *)
Theorem C1_last_arrival_wins v n q f :
  mounted v = true ->
  lookup_inflight n v = Some q ->
  stats (step v (Arrive n (Response true (Some (BodyObject f)))))
  = providers_or_empty f
  /\ applied (step v (Arrive n (Response true (Some (BodyObject f)))))
     = n :: applied v.
Proof.
  intros Hm Hq.
  rewrite (arrive_mounted v n _ q Hm Hq). simpl. split; reflexivity.
Qed.

Lemma C1_last_arrival_wins_witness :
  stats (step (run (mount "demo")
                   [Tick; Arrive 1 (Scenario.ok_stats Scenario.newer)])
              (Arrive 0 (Scenario.ok_stats Scenario.older)))
  = Scenario.older
  /\ applied (step (run (mount "demo")
                      [Tick; Arrive 1 (Scenario.ok_stats Scenario.newer)])
                 (Arrive 0 (Scenario.ok_stats Scenario.older)))
     = [0; 1]%nat.
Proof.
  exact (C1_last_arrival_wins
           (run (mount "demo") [Tick; Arrive 1 (Scenario.ok_stats Scenario.newer)])
           0%nat "demo" (FieldArray Scenario.older) eq_refl eq_refl).
Defined.

(** ** Bodies without [providers] *)

(** C2, counterexample: with a non-empty snapshot in the Store, a 2xx
    response whose body lacks [providers] empties it. *)
Lemma C2_counterexample :
  ~ keeps_snapshot Scenario.no_providers Scenario.older.
Proof.
  unfold keeps_snapshot. simpl. discriminate.
Qed.

(** C2, amended: a 2xx response whose body has no [providers] (absent
    or null) replaces the snapshot by the empty list and logs nothing;
    a network error, a non-2xx status, an unparseable body and a [null]
    body leave the snapshot as it was.  In every case the handler
    returns: nothing escapes its [try]. *)
Theorem C2_missing_providers_empties stats ok_body :
  loadConversationStats (Response true (Some (BodyObject FieldMissing))) stats = ([], [])
  /\ loadConversationStats (Response true (Some (BodyObject FieldNull))) stats = ([], [])
  /\ loadConversationStats NetworkError stats = (stats, [load_failed])
  /\ loadConversationStats (Response false ok_body) stats = (stats, [])
  /\ loadConversationStats (Response true None) stats = (stats, [load_failed])
  /\ loadConversationStats (Response true (Some BodyNull)) stats = (stats, [load_failed])
  /\ renders (fst (loadConversationStats Scenario.no_providers stats)) = false.
Proof.
  repeat split; reflexivity.
Qed.

(** ** Teardown and late responses *)

Lemma lookup_inflight_issue v n q p :
  lookup_inflight n v = Some q ->
  lookup_inflight n (issue p v) = Some q.
Proof.
  unfold lookup_inflight, issue. simpl.
  induction (inflight v) as [|[m r] l IH]; simpl; [discriminate|].
  destruct (Nat.eqb m n); auto.
Qed.

Lemma unmounted_step v e :
  mounted v = false -> interval v = None ->
  mounted (step v e) = false
  /\ interval (step v e) = None
  /\ stats (step v e) = stats v.
Proof.
  intros Hm Hi. destruct e as [p| |n r| |]; simpl.
  - rewrite Hm. simpl. auto.
  - rewrite Hi. auto.
  - destruct (lookup_inflight n v); [rewrite Hm; simpl|]; auto.
  - rewrite Hm. auto.
  - auto.
Qed.

Lemma unmounted_run evs : forall v,
  mounted v = false -> interval v = None ->
  interval (run v evs) = None /\ stats (run v evs) = stats v.
Proof.
  induction evs as [|e evs IH]; intros v Hm Hi; simpl; [auto|].
  destruct (unmounted_step v e Hm Hi) as (Hm' & Hi' & Hs).
  destruct (IH _ Hm' Hi') as [H1 H2]. rewrite <- Hs. auto.
Qed.

Example moved_state :
  lookup_inflight 0 Scenario.moved = Some "alpha"
  /\ projectId Scenario.moved = "beta"
  /\ stats Scenario.moved = []
  /\ stats (step Scenario.moved (Arrive 0 (Scenario.ok_stats Scenario.older)))
     = Scenario.older.
Proof. repeat split; reflexivity. Qed.

(** C5, counterexample: the view has moved from project "alpha" to
    project "beta"; the response to the request sent for "alpha" arrives
    afterwards and replaces [stats]. *)
Lemma C5_counterexample :
  ~ ignores_stale Scenario.moved 0 (Scenario.ok_stats Scenario.older).
Proof.
  intros H. specialize (H "alpha" eq_refl).
  assert (Hne : "alpha" <> projectId Scenario.moved) by (simpl; discriminate).
  specialize (H Hne). discriminate H.
Qed.

(** C5, amended: unmounting cancels the periodic timer of any view,
    with or without requests in flight, and from then on no event (tick,
    late response, anything) changes [stats] or starts a timer; a change
    of the project identifier cancels the old timer and starts one for
    the new project only, but every response to a request sent for the
    old project that arrives after the change is applied to [stats] like
    any other: responses carry no project tag and nothing filters
    them. *)
Theorem C5_teardown v p evs :
  interval (step v Unmount) = None
  /\ mounted (step v Unmount) = false
  /\ interval (run (step v Unmount) evs) = None
  /\ stats (run (step v Unmount) evs) = stats v
  /\ (mounted v = true -> p <> projectId v ->
      interval (step v (SetProject p)) = (if truthy p then Some p else None)
      /\ forall n q f,
           lookup_inflight n v = Some q ->
           stats (step (step v (SetProject p))
                       (Arrive n (Response true (Some (BodyObject f)))))
           = providers_or_empty f).
Proof.
  assert (Hu : mounted (step v Unmount) = false) by reflexivity.
  assert (Hi : interval (step v Unmount) = None) by reflexivity.
  destruct (unmounted_run evs _ Hu Hi) as [H1 H2].
  split; [exact Hi|]. split; [exact Hu|]. split; [exact H1|]. split; [exact H2|].
  intros Hm Hp. apply String.eqb_neq in Hp.
  assert (Hs : step v (SetProject p)
               = runEffect p (mkView p (stats v) (isVisible v) None true
                                     (issued v) (inflight v) (applied v))).
  { simpl. rewrite Hm, Hp. reflexivity. }
  split.
  - rewrite Hs. unfold runEffect. destruct (truthy p); reflexivity.
  - intros n q f Hq.
    assert (Hq' : lookup_inflight n (step v (SetProject p)) = Some q).
    { rewrite Hs. unfold runEffect. destruct (truthy p).
      - exact (lookup_inflight_issue
                 (mkView p (stats v) (isVisible v) None true
                         (issued v) (inflight v) (applied v)) n q p Hq).
      - exact Hq. }
    assert (Hm' : mounted (step v (SetProject p)) = true).
    { rewrite Hs. unfold runEffect. destruct (truthy p); reflexivity. }
    rewrite (arrive_mounted _ n _ q Hm' Hq'). reflexivity.
Qed.

Lemma C5_teardown_witness :
  (inflight (run (mount "alpha") [Arrive 0 (Scenario.ok_stats Scenario.newer)]) = []
   /\ interval (run (mount "alpha") [Arrive 0 (Scenario.ok_stats Scenario.newer)])
      = Some "alpha"
   /\ interval (step (run (mount "alpha")
                          [Arrive 0 (Scenario.ok_stats Scenario.newer)]) Unmount)
      = None
   /\ stats (run (step (run (mount "alpha")
                            [Arrive 0 (Scenario.ok_stats Scenario.newer)]) Unmount)
                 [Tick; Arrive 0 (Scenario.ok_stats Scenario.older)])
      = Scenario.newer)
  /\ interval (step (mount "alpha") Unmount) = None
  /\ interval (step (mount "alpha") (SetProject "beta")) = Some "beta"
  /\ stats (step (step (mount "alpha") (SetProject "beta"))
                 (Arrive 0 (Response true
                              (Some (BodyObject (FieldArray Scenario.older))))))
     = Scenario.older.
Proof.
  destruct (C5_teardown
              (run (mount "alpha") [Arrive 0 (Scenario.ok_stats Scenario.newer)])
              "beta" [Tick; Arrive 0 (Scenario.ok_stats Scenario.older)])
    as (Hi1 & _ & _ & Hi2 & _).
  destruct (C5_teardown (mount "alpha") "beta" [])
    as (Hp1 & _ & _ & _ & Hp2).
  assert (Hne : "beta" <> projectId (mount "alpha")) by (simpl; discriminate).
  destruct (Hp2 eq_refl Hne) as [Hp3 Hp4].
  split; [split; [reflexivity|split; [reflexivity|split; [exact Hi1|exact Hi2]]]|].
  split; [exact Hp1|]. split; [exact Hp3|].
  exact (Hp4 0%nat "alpha" (FieldArray Scenario.older) eq_refl).
Defined.

(** ** The Active Models figure *)

Example inactive_with_messages_counts :
  activeModels (map Spec.stat_of [Scenario.inactive_with_messages]) = 1%nat
  /\ Spec.activeCount [Scenario.inactive_with_messages] = 0%nat.
Proof. split; reflexivity. Qed.

(** C6, counterexample: a provider that is not active but has three
    messages is counted by the monitor and not by the specification's
    formula. *)
Lemma C6_counterexample :
  ~ counts_active_with_messages [Scenario.inactive_with_messages].
Proof.
  unfold counts_active_with_messages. simpl. discriminate.
Qed.

(** The specification's count never exceeds the monitor's. *)
Lemma activeCount_le_activeModels snapshot :
  (Spec.activeCount snapshot <= activeModels (map Spec.stat_of snapshot))%nat.
Proof.
  unfold Spec.activeCount, activeModels.
  induction snapshot as [|p l IH]; simpl; [lia|].
  destruct (Spec.active p), (0 <? Spec.totalMessages p)%Z; simpl; lia.
Qed.

(** C6, amended: the monitor's figure is the number of stats entries
    with [total_messages > 0], recomputed from the current [stats]; a
    stats entry has no active flag.  It is the number of providers with
    [active && totalMessages > 0] for every snapshot in which each
    provider that has messages is active. *)
Theorem C6_active_models snapshot :
  (forall p, In p snapshot ->
             (0 < Spec.totalMessages p)%Z -> Spec.active p = true) ->
  activeModels (map Spec.stat_of snapshot) = Spec.activeCount snapshot.
Proof.
  unfold Spec.activeCount, activeModels.
  induction snapshot as [|p l IH]; intros H; simpl; [reflexivity|].
  assert (IH' := IH (fun x Hx => H x (or_intror Hx))).
  destruct (0 <? Spec.totalMessages p)%Z eqn:Hpos.
  - rewrite (H p (or_introl eq_refl)) by (apply Z.ltb_lt; exact Hpos).
    simpl. f_equal. exact IH'.
  - rewrite andb_false_r. exact IH'.
Qed.

Lemma C6_active_models_witness :
  activeModels
    (map Spec.stat_of
       [ Spec.mkProviderState "deepseek" true 5 3 2 true 900 64000 (45 # 32) false None;
         Spec.mkProviderState "kimi" false 0 0 0 false 0 128000 0 false None ])
  = Spec.activeCount
      [ Spec.mkProviderState "deepseek" true 5 3 2 true 900 64000 (45 # 32) false None;
        Spec.mkProviderState "kimi" false 0 0 0 false 0 128000 0 false None ].
Proof.
  apply C6_active_models.
  intros p [Hp | [Hp | []]] Hpos; subst p; simpl in *; [reflexivity | lia].
Defined.

(** ** Usage percentage *)

Example derived_usage_80 : (Spec.derived_usage 8000 10000 == 80)%Q.
Proof. reflexivity. Qed.

Example overrun_kept :
  (usage_percentage Scenario.overrun == 150)%Q
  /\ (barWidth Scenario.overrun == 100)%Q.
Proof. split; reflexivity. Qed.

(** C9: when the entries of a stats response obey the service's rule
    usage_percentage = estimated_tokens / context_window * 100, the
    Store holds exactly these entries afterwards: every stored entry
    still obeys the rule, above 100 as well as below; the cap at 100 is
    applied by the width of the progress bar alone, and the figure
    printed beside it is the stored one.  8000 tokens in a window of
    10000 give 80. *)
Theorem C9_usage_stored_unclamped old served :
  Forall (fun s => (usage_percentage s ==
                    Spec.derived_usage (estimated_tokens s) (context_window s))%Q)
         served ->
  fst (loadConversationStats (Scenario.ok_stats served) old) = served
  /\ Forall (fun s =>
               (usage_percentage s ==
                Spec.derived_usage (estimated_tokens s) (context_window s))%Q
               /\ (barWidth s ==
                   Qmin (Spec.derived_usage (estimated_tokens s) (context_window s))
                        100)%Q
               /\ (barWidth s <= 100)%Q
               /\ shownUsage s = usage_percentage s)
            (fst (loadConversationStats (Scenario.ok_stats served) old))
  /\ (Spec.derived_usage 8000 10000 == 80)%Q.
Proof.
  intros H. simpl. split; [reflexivity|]. split; [|reflexivity].
  induction H as [|s l Hs Hl IH]; constructor; [|exact IH].
  unfold barWidth, shownUsage. repeat split.
  - exact Hs.
  - rewrite Hs. reflexivity.
  - apply Q.le_min_r.
Qed.

Lemma C9_usage_stored_unclamped_witness :
  usage_percentage Scenario.overrun = (inject_Z 48000 / inject_Z 32000 * 100)%Q
  /\ fst (loadConversationStats
            (Scenario.ok_stats
               [Spec.served_stat "deepseek" 12 8000 10000; Scenario.overrun])
            Scenario.older)
     = [Spec.served_stat "deepseek" 12 8000 10000; Scenario.overrun].
Proof.
  split; [reflexivity|].
  apply (C9_usage_stored_unclamped Scenario.older
           [Spec.served_stat "deepseek" 12 8000 10000; Scenario.overrun]).
  repeat constructor; reflexivity.
Defined.

End MonitorFacts.

Section TabFacts.

Import HistoryTab Claim.

(** ** ClearAll and the providers table *)

Lemma provider_name_listed key :
  has_row key = true ->
  exists n, provider_name key = Some n /\ truthy n = true.
Proof.
  unfold has_row, provider_name, PROVIDERS. simpl.
  destruct ("deepseek" =? key); [eexists; split; reflexivity|].
  destruct ("qwen" =? key); [eexists; split; reflexivity|].
  destruct ("kimi" =? key); [eexists; split; reflexivity|].
  destruct ("doubao" =? key); [eexists; split; reflexivity|].
  discriminate.
Qed.

Lemma provider_name_unlisted key :
  has_row key = false -> provider_name key = None.
Proof.
  unfold has_row, provider_name, PROVIDERS. simpl.
  destruct ("deepseek" =? key); [discriminate|].
  destruct ("qwen" =? key); [discriminate|].
  destruct ("kimi" =? key); [discriminate|].
  destruct ("doubao" =? key); [discriminate|].
  reflexivity.
Qed.

Lemma has_row_ids key :
  has_row key = true <-> In key ["deepseek"; "qwen"; "kimi"; "doubao"].
Proof.
  unfold has_row, PROVIDERS. simpl. split.
  - intros H.
    destruct ("deepseek" =? key) eqn:E1; [apply String.eqb_eq in E1; auto|].
    destruct ("qwen" =? key) eqn:E2; [apply String.eqb_eq in E2; auto|].
    destruct ("kimi" =? key) eqn:E3; [apply String.eqb_eq in E3; auto|].
    destruct ("doubao" =? key) eqn:E4; [apply String.eqb_eq in E4; auto 6|].
    discriminate.
  - intros [H | [H | [H | [H | []]]]]; subst key; reflexivity.
Qed.

(** The names asked about are those of the active entries that the
    table lists, in the order of the entries. *)
Lemma activeProviders_listed m :
  activeProviders m =
  map (fun e => show (provider_name (fst e)))
      (filter (fun e => active (snd e) && has_row (fst e)) m).
Proof.
  unfold activeProviders.
  induction m as [|[key info] m IH]; simpl; [reflexivity|].
  destruct (active info); simpl; [|exact IH].
  destruct (has_row key) eqn:Hrow.
  - destruct (provider_name_listed key Hrow) as (n & Hn & Ht).
    simpl. rewrite Hn, Ht. simpl. f_equal. exact IH.
  - rewrite (provider_name_unlisted key Hrow). simpl. exact IH.
Qed.

Lemma nothing_listed_nothing_asked m :
  (forall key info, In (key, info) m -> active info = true -> has_row key = false) ->
  activeProviders m = [].
Proof.
  intros H. rewrite activeProviders_listed.
  induction m as [|[key info] m IH]; simpl; [reflexivity|].
  destruct (active info) eqn:Ha; simpl.
  - rewrite (H key info (or_introl eq_refl) Ha). simpl.
    apply IH. intros k i Hin. apply H. right. exact Hin.
  - apply IH. intros k i Hin. apply H. right. exact Hin.
Qed.

Lemma reset_nothing_to_clear projectId answer s :
  activeProviders (providersInfo s) = [] ->
  resetAllConversations_call projectId answer s = (s, [nothing_to_clear]).
Proof.
  intros H. unfold resetAllConversations_call. rewrite H. reflexivity.
Qed.

(** With no active provider at all the same path is taken. *)
Lemma reset_without_active projectId answer s :
  forallb (fun e => negb (active (snd e))) (providersInfo s) = true ->
  resetAllConversations_call projectId answer s = (s, [nothing_to_clear])
  /\ clearAll_disabled s = true.
Proof.
  intros H. split.
  - apply reset_nothing_to_clear, nothing_listed_nothing_asked.
    intros key info Hin Ha. rewrite forallb_forall in H.
    specialize (H _ Hin). simpl in H. rewrite Ha in H. discriminate.
  - unfold clearAll_disabled. rewrite H. apply orb_true_r.
Qed.

Lemma every_inactive (m : providers_map) :
  forallb (fun e => negb (active (snd e))) m
  = negb (existsb (fun e => active (snd e)) m).
Proof.
  induction m as [|e l IH]; simpl; [reflexivity|].
  rewrite IH. destruct (active (snd e)); reflexivity.
Qed.

Lemma unlisted_iff_none_asked m :
  activeProviders m = []
  <-> (forall key info, In (key, info) m -> active info = true ->
         ~ In key ["deepseek"; "qwen"; "kimi"; "doubao"]).
Proof.
  split.
  - intros Hnone key info Hin Ha Hkey.
    apply has_row_ids in Hkey.
    rewrite activeProviders_listed in Hnone.
    assert (Hf : In (key, info)
                    (filter (fun e => active (snd e) && has_row (fst e)) m)).
    { apply filter_In. split; [exact Hin|]. simpl. rewrite Ha, Hkey. reflexivity. }
    apply (in_map (fun e => show (provider_name (fst e)))) in Hf.
    rewrite Hnone in Hf. exact Hf.
  - intros H. apply nothing_listed_nothing_asked. intros key info Hin Ha.
    destruct (has_row key) eqn:Hrow; [|reflexivity].
    exfalso. apply (H key info Hin Ha). apply has_row_ids. exact Hrow.
Qed.

(** C10: for every providers map, the names ClearAll asks about are the
    table names of the active entries whose id the table lists
    (deepseek, qwen, kimi, doubao), in the order of the entries; the
    list is empty exactly when every active entry has an id outside the
    table, and a confirmed ClearAll sends its reset-all request exactly
    when the list is not empty.  So when every active entry has an id
    outside the table, and in particular when no entry is active, the
    handler shows the nothing-to-clear alert, sends no request and
    leaves the state as it is, although the button is enabled as soon as
    one entry is active. *)
Theorem C10_reset_all_unlisted projectId answer s m :
  (forall key info, In (key, info) (providersInfo s) ->
                    active info = true ->
                    ~ In key ["deepseek"; "qwen"; "kimi"; "doubao"]) ->
  activeProviders m
  = map (fun e => show (provider_name (fst e)))
        (filter (fun e => active (snd e) && has_row (fst e)) m)
  /\ map provider_name ["deepseek"; "qwen"; "kimi"; "doubao"]
     = [Some "DeepSeek"; Some "Qwen"; Some "Kimi"; Some "Doubao"]
  /\ (forall key, has_row key = true
                  <-> In key ["deepseek"; "qwen"; "kimi"; "doubao"])
  /\ (activeProviders m = []
      <-> (forall key info, In (key, info) m -> active info = true ->
             ~ In key ["deepseek"; "qwen"; "kimi"; "doubao"]))
  /\ requests (snd (resetAllConversations_call projectId true
                      (setProvidersInfo m s)))
     = match activeProviders m with
       | [] => []
       | _ :: _ => [mkRequest POST projectId EResetAll]
       end
  /\ activeProviders (providersInfo s)
     = map (fun e => show (provider_name (fst e)))
           (filter (fun e => active (snd e) && has_row (fst e)) (providersInfo s))
  /\ activeProviders (providersInfo s) = []
  /\ resetAllConversations_call projectId answer s = (s, [nothing_to_clear])
  /\ requests (snd (resetAllConversations_call projectId answer s)) = []
  /\ clearAll_disabled s
     = (isLoading s || negb (existsb (fun e => active (snd e)) (providersInfo s))).
Proof.
  intros H.
  assert (Hnone : activeProviders (providersInfo s) = []).
  { apply unlisted_iff_none_asked. exact H. }
  split; [apply activeProviders_listed|].
  split; [reflexivity|].
  split; [apply has_row_ids|].
  split; [apply unlisted_iff_none_asked|].
  split.
  { unfold resetAllConversations_call. simpl providersInfo.
    destruct (activeProviders m); reflexivity. }
  split; [apply activeProviders_listed|].
  split; [exact Hnone|].
  rewrite (reset_nothing_to_clear projectId answer s Hnone).
  split; [reflexivity|]. split; [reflexivity|].
  unfold clearAll_disabled. f_equal. apply every_inactive.
Qed.

Lemma C10_reset_all_unlisted_witness :
  activeProviders Scenario.one_active = ["DeepSeek"]
  /\ resetAllConversations_call "alpha" true Scenario.unlisted_active
     = (Scenario.unlisted_active, [nothing_to_clear])
  /\ clearAll_disabled Scenario.unlisted_active = false.
Proof.
  assert (H : forall key info,
             In (key, info) (providersInfo Scenario.unlisted_active) ->
             active info = true ->
             ~ In key ["deepseek"; "qwen"; "kimi"; "doubao"]).
  { intros key info [Hin | [Hin | []]] Ha; inversion Hin; subst; simpl in *.
    - discriminate.
    - intros [E | [E | [E | [E | []]]]]; discriminate. }
  destruct (C10_reset_all_unlisted "alpha" true Scenario.unlisted_active
              Scenario.one_active H)
    as (H1 & _ & _ & _ & _ & _ & _ & H8 & _).
  split; [exact H1|]. split; [exact H8|reflexivity].
Defined.

(** ** Mutations in flight *)








(** ** Confirmation in the history tab *)

(** In the tab the DELETE leaves only after [confirm] has returned
    true, and the question names the provider of the row. *)
Lemma tab_delete_needs_confirmation projectId p answer s :
  confirmed_deletes (snd (clearConversationHistory_call projectId p answer s)) false
  = true
  /\ (requests (snd (clearConversationHistory_call projectId p answer s))
      = if answer then [mkRequest DELETE projectId (EHistory p)] else [])
  /\ (has_row p = true ->
      exists n, provider_name p = Some n /\
                clear_question p
                = ("Are you sure you want to clear the conversation history for "
                   ++ n ++ "? This action cannot be undone.")%string).
Proof.
  unfold clearConversationHistory_call.
  split; [destruct answer; reflexivity|].
  split; [destruct answer; reflexivity|].
  intros Hrow. destruct (provider_name_listed p Hrow) as (n & Hn & _).
  exists n. split; [exact Hn|]. unfold clear_question. rewrite Hn. reflexivity.
Qed.

End TabFacts.

Section FlowFacts.

Import Continuity Claim.

(** ** The restoration flow *)

Example non_2xx_is_silent :
  checkAndRestoreConversations Scenario.both_callbacks "2025-01-01T00:00:00.000Z"
    (Response false None) initial
  = (mkState None false false "", []).
Proof. reflexivity. Qed.

(** C7, at the failing input: on a non-2xx response the flow calls no
    callback at all, so the consumer is not told that there is no
    active conversation, whereas a network error and an empty set of
    restorable providers both end in [onConversationLoaded(false)]; in
    the three cases no banner is shown and the loading indicator is
    withdrawn. *)
Theorem C7_non_2xx_not_notified props now body :
  snd (checkAndRestoreConversations props now (Response false body) initial) = []
  /\ ~ notifies_no_conversation
         (snd (checkAndRestoreConversations props now (Response false body) initial))
  /\ snd (checkAndRestoreConversations props now NetworkError initial)
     = check_failed :: when (onConversationLoaded props) (ConversationLoaded false)
  /\ snd (checkAndRestoreConversations props now
            (Response true (Some Scenario.none_restorable)) initial)
     = when (onConversationLoaded props) (ConversationLoaded false)
  /\ banner (fst (checkAndRestoreConversations props now (Response false body) initial))
     = None
  /\ banner (fst (checkAndRestoreConversations props now NetworkError initial)) = None
  /\ banner (fst (checkAndRestoreConversations props now
                    (Response true (Some Scenario.none_restorable)) initial)) = None.
Proof.
  repeat split; try reflexivity.
  unfold notifies_no_conversation. simpl. tauto.
Qed.

(** Whatever the response, the flow ends with the loading indicator
    withdrawn. *)
Lemma flow_never_blocks props now r s :
  isLoading (fst (checkAndRestoreConversations props now r s)) = false.
Proof.
  destruct r as [|[] [data|]]; simpl; try reflexivity.
  destruct (activeProviders data) as [[|p ps]|]; simpl; try reflexivity.
  destruct (totalMessages data); reflexivity.
Qed.

(** C8: for the response {deepseek: active, 5 messages; qwen: active,
    3 messages; kimi: inactive} the flow hands
    hasActiveConversation = true, providers = [deepseek, qwen],
    messageCount = 8 to its consumer and shows a banner whose text
    contains the display names of both providers and the figure 8. *)
Theorem C8_restoration_example now kimi u1 a1 u2 a2 sp1 sp2 :
  sessionInfo (fst (Scenario.restoration now kimi u1 a1 u2 a2 sp1 sp2))
  = Some (mkSession true ["deepseek"; "qwen"] now 8)
  /\ snd (Scenario.restoration now kimi u1 a1 u2 a2 sp1 sp2)
     = [ SessionRestore (mkSession true ["deepseek"; "qwen"] now 8);
         HideAfter 3000;
         ConversationLoaded true ]
  /\ banner (fst (Scenario.restoration now kimi u1 a1 u2 a2 sp1 sp2))
     = Some "已恢复与 DeepSeek、通义千问 的对话历史 (8条消息)"
  /\ includes (formatProviderName "deepseek")
              "已恢复与 DeepSeek、通义千问 的对话历史 (8条消息)" = true
  /\ includes (formatProviderName "qwen")
              "已恢复与 DeepSeek、通义千问 的对话历史 (8条消息)" = true
  /\ includes "8" "已恢复与 DeepSeek、通义千问 的对话历史 (8条消息)" = true.
Proof.
  repeat split; reflexivity.
Qed.

End FlowFacts.

Section IndicatorFacts.

Import Indicator Claim.

(** ** The clear button of the status pill *)

Example pill_click :
  drawn Scenario.pill_state = true
  /\ clearClick_call Scenario.pill_props Scenario.pill_state
     = (Scenario.pill_state,
        [Fetch (mkRequest DELETE "alpha" (EHistory "deepseek"))]).
Proof. split; reflexivity. Qed.

(** C3, at the failing input: a click on the clear button of the status
    pill sends the DELETE for the active provider at once; no
    confirmation is asked, unlike in the history tab, where the same
    request waits for [confirm]. *)
Theorem C3_pill_deletes_unconfirmed props s answer tab :
  requests (snd (clearClick_call props s))
  = [mkRequest DELETE (projectId props)
       (EHistory (HistoryTab.show (activeProvider props)))]
  /\ existsb is_confirm (snd (clearClick_call props s)) = false
  /\ confirmed_deletes (snd (clearClick_call props s)) false = false
  /\ confirmed_deletes
       (snd (HistoryTab.clearConversationHistory_call
               (projectId props) (HistoryTab.show (activeProvider props))
               answer tab))
       false = true.
Proof.
  repeat split; try reflexivity.
  destruct answer; reflexivity.
Qed.

End IndicatorFacts.

Section MonitorExtras.

Import Monitor MonitorRender.

(** ** What can change the snapshot *)

Lemma step_stats v e :
  stats (step v e) = stats v
  \/ exists n f, e = Arrive n (Response true (Some (BodyObject f)))
                 /\ stats (step v e) = providers_or_empty f.
Proof.
  destruct e as [p| |n r| |]; simpl.
  - destruct (mounted v && negb (p =? projectId v)); [|auto].
    unfold runEffect. destruct (truthy p); auto.
  - destruct (interval v); auto.
  - destruct (lookup_inflight n v); [|auto].
    destruct (mounted v); [|auto].
    destruct r as [|[] [[|f]|]]; simpl; auto.
    right. exists n, f. auto.
  - destruct (mounted v); auto.
  - auto.
Qed.

(** X1: whatever the events (ticks, project changes, toggles, failed
    or late responses, unmount), the snapshot on screen is either the one
    the run started with or the providers list of one of the 2xx
    responses that arrived; in particular a change of project does not
    clear the snapshot of the previous project. *)
Theorem X1_snapshot_provenance evs : forall v,
  stats (run v evs) = stats v \/ In (stats (run v evs)) (payloads evs).
Proof.
  induction evs as [|e evs IH]; intros v; simpl; [auto|].
  destruct (IH (step v e)) as [H | H].
  - rewrite H. destruct (step_stats v e) as [Hs | (n & f & He & Hs)].
    + left. exact Hs.
    + right. subst e. simpl. left. symmetry. exact Hs.
  - right. destruct e as [p| |n [|[] [[|f]|]]| |]; simpl; auto.
Qed.

(** ** The periodic timer *)

Lemma timer_step v e :
  timer_of_current_project v -> timer_of_current_project (step v e).
Proof.
  unfold timer_of_current_project. intros H.
  destruct e as [p| |n r| |]; simpl.
  - destruct (mounted v) eqn:Hm; simpl; [|rewrite Hm; exact H].
    destruct (p =? projectId v) eqn:Hp; simpl; [rewrite Hm; exact H|].
    unfold runEffect. destruct (truthy p) eqn:Ht; simpl; rewrite ?Hm, ?Ht; reflexivity.
  - destruct (interval v) eqn:Hi; simpl; rewrite ?Hi; exact H.
  - destruct (lookup_inflight n v); [|exact H].
    destruct (mounted v) eqn:Hm; simpl; rewrite ?Hm; exact H.
  - destruct (mounted v) eqn:Hm; simpl; rewrite ?Hm; exact H.
  - reflexivity.
Qed.

(** X2: along every run of the monitor, from its mount on, the periodic
    timer fetches for the project currently on screen: a change of
    project never leaves a timer of the old project running, and there
    is no timer once the view is unmounted or while the project
    identifier is empty. *)
Theorem X2_timer_follows_project p evs :
  timer_of_current_project (run (mount p) evs).
Proof.
  assert (H0 : timer_of_current_project (mount p)).
  { unfold timer_of_current_project, mount, runEffect.
    destruct (truthy p) eqn:Ht; simpl; rewrite Ht; reflexivity. }
  revert H0. generalize (mount p). induction evs as [|e evs IH]; intros v Hv; simpl.
  - exact Hv.
  - apply IH, timer_step, Hv.
Qed.

(** ** Max Usage and the High Context Usage tip *)

Lemma lt_spec x y : lt x y = true <-> (x < y)%Q.
Proof.
  unfold lt. rewrite negb_true_iff. split.
  - intros H. apply Qnot_le_lt. intros Hle.
    apply Qle_bool_iff in Hle. congruence.
  - intros H. destruct (Qle_bool y x) eqn:E; [|reflexivity].
    apply Qle_bool_iff in E. exfalso. exact (Qlt_not_le _ _ H E).
Qed.

Lemma fold_max_spec (xs : list Q) : forall a,
  (a <= fold_left Qmax xs a)%Q
  /\ Forall (fun x => (x <= fold_left Qmax xs a)%Q) xs
  /\ ((fold_left Qmax xs a == a)%Q \/ Exists (fun x => (x == fold_left Qmax xs a)%Q) xs).
Proof.
  induction xs as [|x xs IH]; intros a; simpl.
  - split; [apply Qle_refl|]. split; [constructor|]. left. reflexivity.
  - destruct (IH (Qmax a x)) as (H1 & H2 & H3).
    split; [eapply Qle_trans; [apply Q.le_max_l|exact H1]|].
    split; [constructor; [eapply Qle_trans; [apply Q.le_max_r|exact H1]|exact H2]|].
    destruct H3 as [H3 | H3].
    + destruct (Q.max_spec a x) as [[_ Hm] | [_ Hm]].
      * right. constructor. rewrite H3, Hm. reflexivity.
      * left. rewrite H3, Hm. reflexivity.
    + right. apply Exists_cons_tl. exact H3.
Qed.

(** X3: whenever the panel is drawn (the snapshot is not empty), the
    Max Usage figure is the usage of one of the entries and bounds the
    usage of all of them, and the High Context Usage tip is shown exactly
    when that maximum exceeds 80; an entry that triggers the tip has its
    figure and its bar in red. *)
Theorem X3_max_usage_and_tip stats :
  renders stats = true ->
  exists m,
    maxUsage stats = Some m
    /\ Forall (fun s => (usage_percentage s <= m)%Q) stats
    /\ Exists (fun s => (usage_percentage s == m)%Q) stats
    /\ (highUsage stats = true <-> (80 < m)%Q)
    /\ Forall (fun s => lt 80 (usage_percentage s) = true ->
                        getUsageColor (usage_percentage s)
                        = "text-red-600 dark:text-red-400"
                        /\ getUsageBarColor (usage_percentage s) = "bg-red-500")
              stats.
Proof.
  intros Hr. destruct stats as [|s0 rest]; [discriminate|]. clear Hr.
  unfold maxUsage. simpl map.
  set (m := fold_left Qmax (map usage_percentage rest) (usage_percentage s0)).
  destruct (fold_max_spec (map usage_percentage rest) (usage_percentage s0))
    as (H1 & H2 & H3). fold m in H1, H2, H3.
  assert (Hall : Forall (fun s => (usage_percentage s <= m)%Q) (s0 :: rest)).
  { constructor; [exact H1|]. rewrite Forall_map in H2. exact H2. }
  assert (Hex : Exists (fun s => (usage_percentage s == m)%Q) (s0 :: rest)).
  { destruct H3 as [H3 | H3].
    - constructor. symmetry. exact H3.
    - apply Exists_cons_tl. rewrite Exists_map in H3. exact H3. }
  exists m. split; [reflexivity|]. split; [exact Hall|]. split; [exact Hex|].
  split.
  - unfold highUsage. rewrite existsb_exists. split.
    + intros (s & Hin & Hs). apply lt_spec in Hs.
      rewrite Forall_forall in Hall. eapply Qlt_le_trans; [exact Hs|auto].
    + intros Hm. rewrite Exists_exists in Hex. destruct Hex as (s & Hin & Hs).
      exists s. split; [exact Hin|]. apply lt_spec. rewrite Hs. exact Hm.
  - apply Forall_forall. intros s _ Hs. apply lt_spec in Hs.
    unfold getUsageColor, getUsageBarColor.
    assert (E50 : lt (usage_percentage s) 50 = false).
    { destruct (lt (usage_percentage s) 50) eqn:E; [|reflexivity].
      apply lt_spec in E. exfalso.
      apply (Qlt_irrefl 80). eapply Qlt_trans; [exact Hs|].
      eapply Qlt_trans; [exact E|reflexivity]. }
    assert (E80 : lt (usage_percentage s) 80 = false).
    { destruct (lt (usage_percentage s) 80) eqn:E; [|reflexivity].
      apply lt_spec in E. exfalso.
      apply (Qlt_irrefl 80). eapply Qlt_trans; [exact Hs|exact E]. }
    rewrite E50, E80. split; reflexivity.
Qed.

Lemma X3_max_usage_and_tip_witness :
  exists m,
    maxUsage (Scenario.overrun :: Scenario.older) = Some m
    /\ Forall (fun s => (usage_percentage s <= m)%Q) (Scenario.overrun :: Scenario.older)
    /\ Exists (fun s => (usage_percentage s == m)%Q) (Scenario.overrun :: Scenario.older)
    /\ (highUsage (Scenario.overrun :: Scenario.older) = true <-> (80 < m)%Q)
    /\ Forall (fun s => lt 80 (usage_percentage s) = true ->
                        getUsageColor (usage_percentage s)
                        = "text-red-600 dark:text-red-400"
                        /\ getUsageBarColor (usage_percentage s) = "bg-red-500")
              (Scenario.overrun :: Scenario.older).
Proof.
  apply (X3_max_usage_and_tip (Scenario.overrun :: Scenario.older)).
  reflexivity.
Defined.

End MonitorExtras.

Section TabExtras.

Import HistoryTab TabInvariant.

(** ** Shapes of [commit] *)

Lemma commit_state k out t : state (commit k out t) = fst out.
Proof. destruct out. reflexivity. Qed.

Lemma commit_log k out t : log (commit k out t) = log t ++ snd out.
Proof. destruct out. reflexivity. Qed.

Lemma commit_project k out t : projectId (commit k out t) = projectId t.
Proof. destruct out. reflexivity. Qed.

Lemma commit_pending_none k out t :
  requests (snd out) = [] -> pending (commit k out t) = pending t.
Proof.
  destruct out as [s es]. simpl. intros ->. simpl. apply app_nil_r.
Qed.

Lemma commit_pending_one k out t r :
  requests (snd out) = [r] ->
  pending (commit k out t) = pending t ++ [(sent t, (r, k))].
Proof.
  destruct out as [s es]. simpl. intros ->. reflexivity.
Qed.

(** ** Shapes of [resume] after a [loadProvidersInfo] *)

Lemma resume_load_state req a r t :
  state (resume req (InLoad a) r t)
  = fst (after_load a (fst (loadProvidersInfo_return r (state t)))).
Proof. unfold resume. destruct a; rewrite ?commit_state; reflexivity. Qed.

Lemma load_return_quiet r s : requests (snd (loadProvidersInfo_return r s)) = [].
Proof. destruct r as [|[] [?|]]; reflexivity. Qed.

Lemma resume_load_pending req a r t :
  pending (resume req (InLoad a) r t) = pending t.
Proof.
  unfold resume.
  destruct a; rewrite ?(commit_pending_none _ (clearConversationHistory_tail _)),
    ?(commit_pending_none _ (resetAllConversations_tail _)) by reflexivity;
  apply commit_pending_none, load_return_quiet.
Qed.

Lemma resume_load_log req a r t :
  log (resume req (InLoad a) r t)
  = log t ++ snd (loadProvidersInfo_return r (state t))
          ++ snd (after_load a (fst (loadProvidersInfo_return r (state t)))).
Proof.
  unfold resume. destruct a; rewrite ?commit_log, ?commit_state; simpl;
    rewrite <- ?app_assoc, ?app_nil_r; reflexivity.
Qed.

(** ** The local copy of the providers *)

(** X5: no handler edits the providers map.  Across any event it stays
    as it was, with one exception: when the event is the arrival of a
    2xx, parsed response to a pending [loadProvidersInfo] request, it
    becomes the body of that response.  Clearing one provider or all of
    them changes nothing locally; only the reload that follows does. *)
Theorem X5_only_loads_write_providers t e :
  providersInfo (state (step t e))
  = match e with
    | Arrive n (Response true (Some data)) =>
        match lookup_pending n t with
        | Some (_, InLoad _) => data
        | _ => providersInfo (state t)
        end
    | _ => providersInfo (state t)
    end.
Proof.
  destruct e as [p| |answer|p answer|n r|]; unfold step.
  - destruct (p =? projectId t); [reflexivity|]. rewrite commit_state. reflexivity.
  - destruct (refresh_disabled (state t)); [reflexivity|].
    rewrite commit_state. reflexivity.
  - destruct (clearAll_disabled (state t)); [reflexivity|]. rewrite commit_state.
    unfold resetAllConversations_call.
    destruct (Nat.eqb _ 0); [reflexivity|]. destruct answer; reflexivity.
  - destruct (negb (has_row p) || clearOne_disabled p (state t)); [reflexivity|].
    rewrite commit_state. unfold clearConversationHistory_call.
    destruct answer; reflexivity.
  - destruct (lookup_pending n t) as [[req k]|] eqn:Hk.
    + destruct k as [a| |].
      * rewrite resume_load_state.
        destruct r as [|[] [data|]], a; reflexivity.
      * unfold resume. rewrite commit_state.
        destruct r as [|[] [data|]]; reflexivity.
      * unfold resume. rewrite commit_state.
        destruct r as [|[] [data|]]; reflexivity.
    + destruct r as [|[] [data|]]; reflexivity.
  - destruct (existsb _ (log t)); reflexivity.
Qed.

(** ** Every mutation is confirmed *)

Lemma authorised_weaken asked r :
  authorised None r = true -> authorised asked r = true.
Proof.
  unfold authorised.
  destruct (req_method r), (req_endpoint r); auto; try discriminate.
  rewrite andb_false_r. discriminate.
Qed.

Lemma confirmed_weaken es asked :
  mutations_confirmed None es = true -> mutations_confirmed asked es = true.
Proof.
  destruct es as [|[r|q a|m|m|ms] es]; simpl; auto.
  rewrite !andb_true_iff. intros [H1 H2]. split; [apply authorised_weaken|]; auto.
Qed.

Lemma confirmed_app es1 : forall asked es2,
  mutations_confirmed asked es1 = true ->
  mutations_confirmed None es2 = true ->
  mutations_confirmed asked (es1 ++ es2) = true.
Proof.
  induction es1 as [|e es1 IH]; intros asked es2 H1 H2; simpl.
  - apply confirmed_weaken, H2.
  - destruct e as [r|q a|m|m|ms]; simpl in *; auto.
    apply andb_true_iff in H1. destruct H1 as [Ha Hr].
    rewrite Ha. simpl. auto.
Qed.

Lemma step_log t e :
  exists es, log (step t e) = log t ++ es
             /\ mutations_confirmed None es = true.
Proof.
  assert (Hsame : exists es, log t = log t ++ es
                             /\ mutations_confirmed None es = true).
  { exists []. rewrite app_nil_r. auto. }
  destruct e as [p| |answer|p answer|n r|]; unfold step.
  - destruct (p =? projectId t); [exact Hsame|].
    rewrite commit_log. eexists. split; reflexivity.
  - destruct (refresh_disabled (state t)); [exact Hsame|].
    rewrite commit_log. eexists. split; reflexivity.
  - destruct (clearAll_disabled (state t)); [exact Hsame|].
    rewrite commit_log. eexists. split; [reflexivity|].
    unfold resetAllConversations_call.
    destruct (Nat.eqb _ 0); [reflexivity|]. destruct answer; reflexivity.
  - destruct (has_row p) eqn:Hrow; simpl; [|exact Hsame].
    destruct (clearOne_disabled p (state t)); [exact Hsame|].
    rewrite commit_log. eexists. split; [reflexivity|].
    unfold clearConversationHistory_call. destruct answer; simpl; [|reflexivity].
    unfold authorised. simpl. rewrite Hrow, String.eqb_refl. reflexivity.
  - destruct (lookup_pending n t) as [[req k]|]; [|exact Hsame].
    destruct k as [a| |].
    + rewrite resume_load_log. eexists. split; [reflexivity|].
      destruct r as [|[] [?|]], a; reflexivity.
    + unfold resume. rewrite commit_log. eexists. split; [reflexivity|].
      destruct r as [|[] ?]; reflexivity.
    + unfold resume. rewrite commit_log. eexists. split; [reflexivity|].
      destruct r as [|[] [?|]]; reflexivity.
  - destruct (existsb _ (log t)); exact Hsame.
Qed.

(** X4: in every run of the history tab, from its mount on and under
    any interleaving of clicks, answers and responses, each DELETE in the
    log comes right after a confirmation dialog that the user accepted,
    whose question is the one naming that provider, and targets a
    provider of the table; each reset-all POST comes right after an
    accepted dialog; declined dialogs are followed by no request. *)
Theorem X4_mutations_confirmed p evs :
  mutations_confirmed None (log (run (mount p) evs)) = true.
Proof.
  assert (H0 : mutations_confirmed None (log (mount p)) = true) by reflexivity.
  revert H0. generalize (mount p).
  induction evs as [|e evs IH]; intros t Ht; simpl; [exact Ht|].
  apply IH. destruct (step_log t e) as (es & -> & Hes).
  apply confirmed_app; assumption.
Qed.

(** ** Numbering of the unanswered requests *)

Lemma map_fst_combine_seq (B : Type) (l : list B) : forall a,
  map fst (combine (seq a (List.length l)) l) = seq a (List.length l).
Proof.
  induction l as [|b l IH]; intros a; simpl; [reflexivity|].
  rewrite IH. reflexivity.
Qed.

Lemma wn_commit k out t : well_numbered t -> well_numbered (commit k out t).
Proof.
  destruct out as [s es]. unfold well_numbered, commit. simpl.
  set (rs := requests es). intros [Hnd Hlt].
  assert (Hids : map fst (combine (seq (sent t) (List.length rs))
                                  (map (fun r => (r, k)) rs))
                 = seq (sent t) (List.length rs)).
  { rewrite <- (length_map (fun r => (r, k)) rs) at 1.
    rewrite map_fst_combine_seq, length_map. reflexivity. }
  split.
  - rewrite map_app, Hids. apply NoDup_app.
    + exact Hnd.
    + apply seq_NoDup.
    + intros a Ha Hs. apply in_seq in Hs. apply in_map_iff in Ha.
      destruct Ha as (q & <- & Hq). rewrite Forall_forall in Hlt.
      specialize (Hlt q Hq). lia.
  - apply Forall_app. split.
    + eapply Forall_impl; [|exact Hlt]. intros q Hq. simpl in *. lia.
    + apply Forall_forall. intros q Hq.
      assert (Hin : In (fst q) (seq (sent t) (List.length rs))).
      { rewrite <- Hids. apply in_map. exact Hq. }
      apply in_seq in Hin. lia.
Qed.

Lemma wn_answered n t : well_numbered t -> well_numbered (answered n t).
Proof.
  unfold well_numbered, answered. simpl. intros [Hnd Hlt]. split.
  - clear Hlt. induction (pending t) as [|q l IH]; simpl; [constructor|].
    inversion Hnd as [|? ? Hq Hl]; subst.
    destruct (negb (Nat.eqb (fst q) n)); simpl; [|auto].
    constructor; [|auto]. intros Hin. apply Hq.
    apply in_map_iff in Hin. destruct Hin as (q' & Hf & Hq').
    apply filter_In in Hq'. apply in_map_iff. exists q'. tauto.
  - apply Forall_forall. intros q Hq. apply filter_In in Hq.
    rewrite Forall_forall in Hlt. apply Hlt. tauto.
Qed.

Lemma wn_step t e : well_numbered t -> well_numbered (step t e).
Proof.
  intros H. destruct e as [p| |answer|p answer|n r|]; unfold step.
  - destruct (p =? projectId t); [exact H|]. apply wn_commit. exact H.
  - destruct (refresh_disabled (state t)); [exact H|]. apply wn_commit, H.
  - destruct (clearAll_disabled (state t)); [exact H|]. apply wn_commit, H.
  - destruct (negb (has_row p) || clearOne_disabled p (state t)); [exact H|].
    apply wn_commit, H.
  - destruct (lookup_pending n t) as [[req k]|]; [|exact H].
    apply (wn_answered n) in H. unfold resume.
    destruct k as [[| |]| |]; repeat apply wn_commit; exact H.
  - destruct (existsb _ (log t)); exact H.
Qed.

Lemma wn_run evs : forall t, well_numbered t -> well_numbered (run t evs).
Proof.
  induction evs as [|e evs IH]; intros t H; simpl; [exact H|].
  apply IH, wn_step, H.
Qed.

(** ** No flag without a handler that will clear it *)

Lemma waiting_commit f k out t :
  waiting f (commit k out t)
  = waiting f t || (f k && negb (Nat.eqb (List.length (requests (snd out))) 0)).
Proof.
  destruct out as [s es]. unfold waiting, commit. simpl.
  rewrite existsb_app. f_equal.
  generalize (sent t). induction (requests es) as [|r rs IH]; intros a; simpl.
  - rewrite andb_false_r. reflexivity.
  - destruct (f k); [reflexivity|]. simpl. rewrite IH. reflexivity.
Qed.

Lemma waiting_answered f n t req k :
  well_numbered t ->
  lookup_pending n t = Some (req, k) ->
  f k = false ->
  waiting f t = true ->
  waiting f (answered n t) = true.
Proof.
  unfold waiting, lookup_pending, answered. simpl.
  intros [Hnd _] Hk Hf Hw.
  destruct (find _ (pending t)) as [q0|] eqn:Hfind; [|discriminate].
  apply find_some in Hfind. destruct Hfind as [Hin0 Hn0].
  apply Nat.eqb_eq in Hn0. simpl in Hk. injection Hk as Hk.
  apply existsb_exists in Hw. destruct Hw as (q & Hin & Hq).
  apply existsb_exists. exists q. split; [|exact Hq].
  apply filter_In. split; [exact Hin|].
  apply negb_true_iff, Nat.eqb_neq. intros Heq.
  assert (q = q0).
  { clear - Hnd Hin Hin0 Heq Hn0. rewrite <- Hn0 in Heq. clear Hn0.
    induction (pending t) as [|x l IH]; [contradiction|].
    simpl in Hnd. inversion Hnd as [|? ? Hx Hl]; subst.
    destruct Hin as [-> | Hin], Hin0 as [-> | Hin0]; auto.
    - exfalso. apply Hx. rewrite Heq. apply in_map. exact Hin0.
    - exfalso. apply Hx. rewrite <- Heq. apply in_map. exact Hin. }
  subst q0. rewrite Hk in Hq. simpl in Hq. congruence.
Qed.

Lemma waiting_same f t1 t2 :
  pending t1 = pending t2 -> waiting f t1 = waiting f t2.
Proof. unfold waiting. intros ->. reflexivity. Qed.

Lemma after_load_flags a r s :
  isLoading (fst (after_load a (fst (loadProvidersInfo_return r s)))) = false
  /\ clearingProvider (fst (after_load a (fst (loadProvidersInfo_return r s))))
     = if clears_mark (InLoad a) then None else clearingProvider s.
Proof. destruct r as [|[] [?|]], a; split; reflexivity. Qed.

Lemma flags_step t e :
  well_numbered t -> flags_explained t -> flags_explained (step t e).
Proof.
  intros Hwn [Hload Hmark].
  destruct e as [p| |answer|p answer|n r|]; unfold step.
  - destruct (p =? projectId t); [split; assumption|].
    split; rewrite waiting_commit, commit_state; simpl.
    + intros _. apply orb_true_r.
    + intros H. unfold waiting in *. simpl. rewrite (Hmark H). reflexivity.
  - destruct (refresh_disabled (state t)); [split; assumption|].
    split; rewrite waiting_commit, commit_state; simpl.
    + intros _. apply orb_true_r.
    + intros H. rewrite (Hmark H). reflexivity.
  - destruct (clearAll_disabled (state t)); [split; assumption|].
    unfold resetAllConversations_call.
    destruct (Nat.eqb _ 0); [|destruct answer];
      split; rewrite waiting_commit, commit_state; simpl;
      intros H; rewrite ?orb_false_r, ?orb_true_r; auto.
  - destruct (negb (has_row p) || clearOne_disabled p (state t)); [split; assumption|].
    unfold clearConversationHistory_call.
    destruct answer; split; rewrite waiting_commit, commit_state; simpl;
      intros H; rewrite ?orb_false_r, ?orb_true_r; auto.
  - destruct (lookup_pending n t) as [[req k]|] eqn:Hk; [|split; assumption].
    destruct k as [a| |].
    + destruct (after_load_flags a r (state t)) as [Hl Hm].
      split; rewrite resume_load_state; simpl state.
      * rewrite Hl. discriminate.
      * rewrite Hm. destruct (clears_mark (InLoad a)) eqn:Ha; [congruence|].
        intros H.
        rewrite (waiting_same _ _ (answered n t)) by apply resume_load_pending.
        apply (waiting_answered _ n t req (InLoad a)); auto.
    + unfold resume.
      split; rewrite waiting_commit, commit_state;
        destruct r as [|[] body]; simpl;
        rewrite ?orb_false_r, ?orb_true_r; intros H;
        try reflexivity; try congruence;
        apply (waiting_answered _ n t req InClearOne); auto.
    + unfold resume.
      split; rewrite waiting_commit, commit_state;
        destruct r as [|[] [body|]]; simpl;
        rewrite ?orb_false_r, ?orb_true_r; intros H;
        try reflexivity; try congruence;
        apply (waiting_answered _ n t req InResetAll); auto.
  - destruct (existsb _ (log t)); split; assumption.
Qed.

Lemma flags_run evs : forall t,
  well_numbered t -> flags_explained t -> flags_explained (run t evs).
Proof.
  induction evs as [|e evs IH]; intros t Hw Hf; simpl; [exact Hf|].
  apply IH; [apply wn_step, Hw | apply flags_step; assumption].
Qed.

Lemma mount_well_formed p : well_numbered (mount p) /\ flags_explained (mount p).
Proof.
  split.
  - split; simpl; repeat constructor. intros [].
  - split; [intros _; reflexivity|].
    intros H. exfalso. apply H. reflexivity.
Qed.

(** X6: in every run of the history tab, a set [isLoading] flag or
    [clearingProvider] mark always has an unanswered request whose
    handler will clear it; so whenever no request is outstanding the
    controls are not held disabled by either: [isLoading] is false and
    no provider is marked as being cleared. *)
Theorem X6_flags_cleared_when_idle p evs :
  pending (run (mount p) evs) = [] ->
  isLoading (state (run (mount p) evs)) = false
  /\ clearingProvider (state (run (mount p) evs)) = None.
Proof.
  intros Hidle.
  destruct (mount_well_formed p) as [Hw Hf].
  destruct (flags_run evs _ Hw Hf) as [Hload Hmark].
  unfold waiting in *. rewrite Hidle in *. simpl in *. split.
  - destruct (isLoading _); [|reflexivity]. discriminate (Hload eq_refl).
  - destruct (clearingProvider _) as [c|]; [|reflexivity].
    assert (Hc : Some c <> None) by discriminate. discriminate (Hmark Hc).
Qed.

Lemma X6_flags_cleared_when_idle_witness :
  isLoading (state (run (mount "alpha")
     [ Arrive 0 (Response true (Some Scenario.one_active));
       ClickClearOne "deepseek" true;
       Arrive 1 (Response true None);
       Arrive 2 (Response false None) ])) = false
  /\ clearingProvider (state (run (mount "alpha")
     [ Arrive 0 (Response true (Some Scenario.one_active));
       ClickClearOne "deepseek" true;
       Arrive 1 (Response true None);
       Arrive 2 (Response false None) ])) = None.
Proof.
  apply (X6_flags_cleared_when_idle "alpha").
  reflexivity.
Defined.

(** ** Nothing to clear, nothing sent *)






End TabExtras.

Section FlowExtras.

Import Continuity FlowView.

Example prototype_names :
  formatProviderName "constructor" = "function Object() { [native code] }"
  /\ formatProviderName "__proto__" = "[object Object]"
  /\ formatProviderName "glm" = "glm"
  /\ formatProviderName "doubao" = "豆包".
Proof. repeat split; reflexivity. Qed.

Example sums_are_doubles :
  totalMessages
    [ ("deepseek", mkInfo true (Some (mkSummary 9007199254740992 0 0 true)));
      ("qwen", mkInfo true (Some (mkSummary 1 1 0 true))) ]
  = Some 9007199254740992%Z
  /\ js_add 9007199254740992 3 = 9007199254740996%Z
  /\ js_add 5 3 = 8%Z.
Proof. repeat split; reflexivity. Qed.

(** ** A [null] summary *)

Lemma restorable_null info :
  active info = true -> summary info = None -> restorable info = None.
Proof. unfold restorable, summary_total. intros -> ->. reflexivity. Qed.

Lemma activeProviders_null data key info :
  In (key, info) data -> active info = true -> summary info = None ->
  activeProviders data = None.
Proof.
  intros Hin Ha Hs. induction data as [|[k i] rest IH]; [contradiction|].
  simpl. destruct Hin as [Heq | Hin].
  - injection Heq as -> ->. rewrite (restorable_null info Ha Hs). reflexivity.
  - rewrite (IH Hin). destruct (restorable i); reflexivity.
Qed.

(** X8: when the providers response holds an active provider whose
    summary is [null], the flow ends in its [catch] whatever the other
    entries are: the failure is logged, the consumer is told that there
    is no conversation, no session is restored and no banner text is
    set, even if other providers have messages. *)
Theorem X8_null_summary_fails props now data s key info :
  In (key, info) data ->
  active info = true ->
  summary info = None ->
  checkAndRestoreConversations props now (Response true (Some data)) s
  = (mkState (sessionInfo s) false (showStatus s) (statusMessage s),
     check_failed :: when (onConversationLoaded props) (ConversationLoaded false)).
Proof.
  intros Hin Ha Hs. simpl.
  rewrite (activeProviders_null data key info Hin Ha Hs). reflexivity.
Qed.

Lemma X8_null_summary_fails_witness :
  checkAndRestoreConversations Scenario.both_callbacks "t"
    (Response true
       (Some [ ("deepseek", mkInfo true (Some (mkSummary 5 3 2 true)));
               ("qwen", mkInfo true None) ]))
    initial
  = (mkState None false false "", [check_failed; ConversationLoaded false]).
Proof.
  apply (X8_null_summary_fails Scenario.both_callbacks "t" _ initial
           "qwen" (mkInfo true None)).
  - right. left. reflexivity.
  - reflexivity.
  - reflexivity.
Defined.

(** ** What is restored *)









(** ** How the consumer is told *)

(** X10: with [onConversationLoaded] supplied, one run of the flow from
    the initial state calls it exactly once, except on a non-2xx
    response, where it is not called; it is called with [true] exactly
    when the banner is shown, which is exactly when a session has been
    stored. *)
Theorem X10_loaded_once props now r :
  onConversationLoaded props = true ->
  times_loaded (snd (checkAndRestoreConversations props now r initial))
  = match r with Response false _ => 0%nat | _ => 1%nat end
  /\ (In (ConversationLoaded true)
         (snd (checkAndRestoreConversations props now r initial))
      <-> banner (fst (checkAndRestoreConversations props now r initial)) <> None)
  /\ (banner (fst (checkAndRestoreConversations props now r initial)) <> None
      <-> sessionInfo (fst (checkAndRestoreConversations props now r initial))
          <> None).
Proof.
  intros Hcb.
  destruct r as [|[] [data|]]; cbn; rewrite ?Hcb; cbn.
  2: destruct (activeProviders data) as [[|p ps]|]; cbn; rewrite ?Hcb; cbn;
     [ | destruct (totalMessages data); cbn; rewrite ?Hcb; cbn | ].
  all: split; [try reflexivity | split; split; intros H; try congruence].
  all: try (unfold check_failed in H; cbn in H; intuition discriminate).
  - destruct (onSessionRestore props); reflexivity.
  - apply in_or_app. right. cbn. auto.
Qed.

Lemma X10_loaded_once_witness :
  times_loaded
    (snd (checkAndRestoreConversations Scenario.both_callbacks "t"
            (Response true (Some Scenario.none_restorable)) initial))
  = 1%nat.
Proof.
  apply (X10_loaded_once Scenario.both_callbacks "t"
           (Response true (Some Scenario.none_restorable))).
  reflexivity.
Defined.

End FlowExtras.

Section IndicatorExtras.

Import Indicator.

(** X11: after a 2xx summary response with an object body the pill is
    drawn exactly when the reported total is positive; a non-2xx
    response, a network error and an unparseable body leave the state as
    it was, but a 2xx response whose body is [null] drops the summary
    before the handler fails, which hides the pill; once the DELETE of
    the clear button is answered the pill is hidden and the summary
    dropped whatever the status of the answer, 2xx or not, and nothing is
    fetched again; only a network error keeps the pill. *)
Theorem X11_pill_visibility data ok body reply s :
  drawn (fst (loadConversationSummary (Response true (Some (SummaryObject data))) s))
  = (0 <? total_messages data)%Z
  /\ loadConversationSummary (Response true (Some SummaryNull)) s
     = (mkState None (isVisible s), [summary_failed])
  /\ drawn (fst (loadConversationSummary (Response true (Some SummaryNull)) s)) = false
  /\ loadConversationSummary (Response false body) s = (s, [])
  /\ loadConversationSummary (Response true None) s = (s, [summary_failed])
  /\ loadConversationSummary NetworkError s = (s, [summary_failed])
  /\ drawn (fst (clearClick_return (Response ok reply) s)) = false
  /\ summary (fst (clearClick_return (Response ok reply) s)) = None
  /\ requests (snd (clearClick_return (Response ok reply) s)) = []
  /\ fst (clearClick_return NetworkError s) = s.
Proof.
  repeat split; try reflexivity.
  - unfold drawn. simpl.
    destruct (0 <? total_messages data)%Z eqn:Hpos; [|reflexivity].
    apply Z.ltb_lt in Hpos. simpl. apply negb_true_iff, Z.eqb_neq. lia.
  - unfold drawn. simpl. apply andb_false_r.
Qed.

End IndicatorExtras.

Section ConfigureExtras.

Import Configure.

Example validate_examples :
  validateApiKey "deepseek" "sk-123" = true
  /\ validateApiKey "deepseek" "key-123" = false
  /\ validateApiKey "doubao" "0123456789" = false
  /\ validateApiKey "doubao" "0123456789a" = true
  /\ validateApiKey "glm" "anything" = true
  /\ validateApiKey "kimi" "" = true.
Proof. repeat split; reflexivity. Qed.

Example read_example :
  readExistingEnv (Some "# c
A=1
b=2
_X=a=b
A=3
=4")
  = [("A", "3"); ("_X", "a=b")].
Proof. reflexivity. Qed.

(** ** Setting and reading a variable *)





(** ** Lines *)

Lemma all_chars_app f a b :
  all_chars f (a ++ b) = all_chars f a && all_chars f b.
Proof.
  induction a as [|c a IH]; simpl; [reflexivity|].
  rewrite IH. apply andb_assoc.
Qed.

Lemma split_one_line x : one_line x = true -> split_lines x = [x].
Proof.
  unfold one_line. induction x as [|c x IH]; simpl; [reflexivity|].
  intros H. apply andb_true_iff in H. destruct H as [Hc Hx].
  apply negb_true_iff in Hc. rewrite Hc, (IH Hx). reflexivity.
Qed.

Lemma split_app x rest :
  one_line x = true ->
  split_lines (x ++ String newline rest) = x :: split_lines rest.
Proof.
  unfold one_line. induction x as [|c x IH]; simpl.
  - intros _. reflexivity.
  - intros H. apply andb_true_iff in H. destruct H as [Hc Hx].
    apply negb_true_iff in Hc. rewrite Hc, (IH Hx). reflexivity.
Qed.

Lemma split_join lines :
  lines <> [] ->
  Forall (fun l => one_line l = true) lines ->
  split_lines (join (String newline "") lines) = lines.
Proof.
  unfold join. induction lines as [|x xs IH]; [congruence|].
  intros _ Hall. inversion Hall as [|? ? Hx Hxs]; subst.
  destruct xs as [|y ys]; simpl.
  - apply split_one_line, Hx.
  - change (split_lines (x ++ String newline (String.concat (String newline "") (y :: ys)))
            = x :: y :: ys).
    rewrite (split_app _ _ Hx). f_equal. apply IH; [discriminate|exact Hxs].
Qed.

(** ** The pattern *)

Lemma span_key_app k v :
  all_chars key_char k = true ->
  span_key (k ++ String equals_sign v) = (k, String equals_sign v).
Proof.
  induction k as [|c k IH]; simpl; [reflexivity|].
  intros H. apply andb_true_iff in H. destruct H as [Hc Hk].
  rewrite Hc, (IH Hk). reflexivity.
Qed.

Lemma match_line_setting k v :
  valid_key k = true -> dots v = true ->
  match_line (k ++ "=" ++ v) = Some (k, v).
Proof.
  unfold valid_key, match_line. intros Hk Hv.
  apply andb_true_iff in Hk. destruct Hk as [Hne Hk].
  change (k ++ "=" ++ v)%string with (k ++ String equals_sign v)%string.
  rewrite (span_key_app k v Hk).
  destruct k as [|c k]; [discriminate|].
  rewrite Hv. reflexivity.
Qed.

Lemma key_char_not_newline c : key_char c = true -> Ascii.eqb c newline = false.
Proof.
  intros H. destruct (Ascii.eqb c newline) eqn:E; [|reflexivity].
  apply Ascii.eqb_eq in E. subst c. discriminate H.
Qed.

Lemma valid_key_one_line k : all_chars key_char k = true -> one_line k = true.
Proof.
  unfold one_line. induction k as [|c k IH]; simpl; [reflexivity|].
  intros H. apply andb_true_iff in H. destruct H as [Hc Hk].
  rewrite (key_char_not_newline c Hc), (IH Hk). reflexivity.
Qed.

Lemma dots_one_line v : dots v = true -> one_line v = true.
Proof.
  unfold one_line. induction v as [|c v IH]; [reflexivity|].
  intros H. cbn [dots] in H. rewrite !andb_true_iff in H.
  destruct H as [[[[Hn _] _] _] Hv].
  cbn [all_chars]. rewrite Hn, (IH Hv). reflexivity.
Qed.

Lemma setting_one_line k v :
  valid_key k = true -> dots v = true -> one_line (k ++ "=" ++ v) = true.
Proof.
  unfold valid_key. intros Hk Hv. apply andb_true_iff in Hk.
  destruct Hk as [_ Hk]. unfold one_line.
  rewrite !all_chars_app. fold (one_line k). fold (one_line v).
  rewrite (valid_key_one_line k Hk), (dots_one_line v Hv). reflexivity.
Qed.

(** ** Reading back what was read *)

Lemma read_parsed lines : forall e0,
  fold_left
    (fun e line =>
       match match_line line with
       | Some (k, v) => env_set k v e
       | None => e
       end) lines e0
  = fold_left (fun e kv => env_set (fst kv) (snd kv) e) (parsed lines) e0.
Proof.
  induction lines as [|l lines IH]; intros e0; [reflexivity|].
  unfold parsed. cbn [fold_left flat_map]. fold (parsed lines).
  rewrite fold_left_app, IH.
  destruct (match_line l) as [[k v]|]; reflexivity.
Qed.

Lemma env_set_fresh k v e :
  ~ In k (map fst e) -> env_set k v e = e ++ [(k, v)].
Proof.
  induction e as [|[k' v'] rest IH]; simpl; [reflexivity|].
  intros H. destruct (k' =? k) eqn:E.
  - apply String.eqb_eq in E. tauto.
  - rewrite IH by tauto. reflexivity.
Qed.

Lemma set_all_fresh kvs : forall e0,
  NoDup (map fst (e0 ++ kvs)) ->
  fold_left (fun e kv => env_set (fst kv) (snd kv) e) kvs e0 = e0 ++ kvs.
Proof.
  induction kvs as [|[k v] kvs IH]; intros e0 Hnd; simpl.
  - symmetry. apply app_nil_r.
  - assert (Hsplit : e0 ++ (k, v) :: kvs = (e0 ++ [(k, v)]) ++ kvs)
      by (rewrite <- app_assoc; reflexivity).
    rewrite Hsplit in Hnd |- *.
    rewrite env_set_fresh.
    + apply IH. exact Hnd.
    + rewrite !map_app in Hnd. apply NoDup_app_remove_r in Hnd.
      simpl in Hnd. apply NoDup_remove_2 in Hnd.
      rewrite app_nil_r in Hnd. exact Hnd.
Qed.

Lemma env_get_in k v e : env_get k e = Some v -> In (k, v) e.
Proof.
  unfold env_get. destruct (find _ e) as [[k' v']|] eqn:Hf; [|discriminate].
  apply find_some in Hf. destruct Hf as [Hin Hk]. simpl in *.
  apply String.eqb_eq in Hk. subst k'. intros [= <-]. exact Hin.
Qed.

Lemma env_get_nodup k v e :
  NoDup (map fst e) -> In (k, v) e -> env_get k e = Some v.
Proof.
  unfold env_get. induction e as [|[k' v'] rest IH]; simpl; [contradiction|].
  intros Hnd [Heq | Hin].
  - injection Heq as -> ->. rewrite String.eqb_refl. reflexivity.
  - inversion Hnd as [|? ? Hk Hrest]; subst.
    destruct (k' =? k) eqn:E.
    + apply String.eqb_eq in E. subst k'. exfalso. apply Hk.
      apply in_map_iff. exists (k, v). auto.
    + apply IH; assumption.
Qed.

(** ** What [writeEnvFile] writes, line by line *)

Lemma parsed_app a b : parsed (a ++ b) = parsed a ++ parsed b.
Proof. unfold parsed. apply flat_map_app. Qed.

Lemma parsed_key_lines comment var e :
  wf_env e ->
  match_line comment = None ->
  valid_key var = true ->
  parsed (key_lines comment var e)
  = match env_get var e with
    | Some v => if truthy v then [(var, v)] else []
    | None => []
    end.
Proof.
  intros [_ Hwf] Hc Hvar. unfold key_lines.
  destruct (env_get var e) as [v|] eqn:Hg; [|reflexivity].
  destruct (truthy v); [|reflexivity].
  apply env_get_in in Hg. rewrite Forall_forall in Hwf.
  destruct (Hwf _ Hg) as [_ Hv]. simpl in Hv.
  unfold parsed. cbn [flat_map]. rewrite Hc, (match_line_setting var v Hvar Hv).
  reflexivity.
Qed.

Lemma one_line_key_lines comment var e :
  wf_env e ->
  one_line comment = true ->
  valid_key var = true ->
  Forall (fun l => one_line l = true) (key_lines comment var e).
Proof.
  intros [_ Hwf] Hc Hvar. unfold key_lines.
  destruct (env_get var e) as [v|] eqn:Hg; [|constructor].
  destruct (truthy v); [|constructor].
  apply env_get_in in Hg. rewrite Forall_forall in Hwf.
  destruct (Hwf _ Hg) as [_ Hv]. simpl in Hv.
  repeat constructor; [exact Hc|]. apply setting_one_line; assumption.
Qed.

(** The lines of the settings that are not provider keys, for the
    entries [l] of an environment [e]. *)
Lemma other_settings e l :
  NoDup (map fst e) ->
  incl l e ->
  Forall (fun kv => valid_key (fst kv) = true /\ dots (snd kv) = true) l ->
  let lines :=
    map (fun k => (k ++ "=" ++ HistoryTab.show (env_get k e))%string)
        (filter (fun k => negb (is_provider_var k)) (map fst l)) in
  parsed lines = filter (fun kv => negb (is_provider_var (fst kv))) l
  /\ Forall (fun x => one_line x = true) lines.
Proof.
  intros Hnd. induction l as [|[k v] l IH]; intros Hincl Hwf.
  - split; [reflexivity|constructor].
  - inversion Hwf as [|? ? [Hk Hv] Hl]; subst. cbn [fst snd] in Hk, Hv.
    destruct (IH (fun x Hx => Hincl x (or_intror Hx)) Hl) as [IH1 IH2].
    cbn [map filter fst]. cbv zeta in IH1, IH2 |- *.
    destruct (negb (is_provider_var k)); [|split; assumption].
    cbn [map]. rewrite (env_get_nodup k v e Hnd (Hincl _ (or_introl eq_refl))).
    cbn [HistoryTab.show]. split.
    + unfold parsed in *. cbn [flat_map].
      rewrite (match_line_setting k v Hk Hv). cbn [app]. f_equal. exact IH1.
    + constructor; [apply setting_one_line; assumption|exact IH2].
Qed.

Lemma filter_keys (e : env) :
  map fst (filter (fun kv => negb (is_provider_var (fst kv))) e)
  = filter (fun k => negb (is_provider_var k)) (map fst e).
Proof.
  induction e as [|[k v] e IH]; simpl; [reflexivity|].
  destruct (negb (is_provider_var k)); simpl; rewrite IH; reflexivity.
Qed.

Lemma parsed_other_lines e :
  wf_env e ->
  parsed (other_lines e) = filter (fun kv => negb (is_provider_var (fst kv))) e
  /\ Forall (fun x => one_line x = true) (other_lines e).
Proof.
  intros [Hnd Hwf].
  destruct (other_settings e e Hnd (incl_refl e) Hwf) as [H1 H2].
  unfold other_lines, otherKeys.
  destruct (filter (fun k => negb (is_provider_var k)) (map fst e)) as [|k ks] eqn:Hk.
  - simpl. split; [|constructor]. rewrite <- H1. reflexivity.
  - cbn [List.length Nat.eqb]. rewrite parsed_app. split.
    + rewrite H1. reflexivity.
    + apply Forall_app. split; [repeat constructor|exact H2].
Qed.

Lemma parsed_env_lines e :
  wf_env e ->
  parsed (env_lines e) = laid_out e
  /\ Forall (fun x => one_line x = true) (env_lines e).
Proof.
  intros Hwf. destruct (parsed_other_lines e Hwf) as [Ho1 Ho2].
  unfold env_lines, laid_out, provider_part, provider_vars. split.
  - rewrite !parsed_app, Ho1.
    rewrite !(parsed_key_lines _ _ e Hwf) by reflexivity.
    cbn [flat_map]. rewrite app_nil_r, <- !app_assoc. reflexivity.
  - repeat (apply Forall_app; split); try exact Ho2;
      try (apply one_line_key_lines; [exact Hwf|reflexivity|reflexivity]).
    repeat constructor.
Qed.

Lemma provider_part_keys e (vars : list string) :
  NoDup vars ->
  NoDup (map fst (provider_part e vars))
  /\ incl (map fst (provider_part e vars)) vars.
Proof.
  unfold provider_part.
  induction vars as [|x vars IH]; intros Hnd; simpl.
  - split; [constructor|apply incl_refl].
  - inversion Hnd as [|? ? Hx Hvars]; subst.
    destruct (IH Hvars) as [IH1 IH2].
    destruct (env_get x e) as [v|]; [destruct (truthy v)|]; simpl.
    + split.
      * constructor; [|exact IH1]. intros Hin. apply Hx, IH2, Hin.
      * intros k [<- | Hk]; [left; reflexivity|right; apply IH2, Hk].
    + split; [exact IH1|]. intros k Hk. right. apply IH2, Hk.
    + split; [exact IH1|]. intros k Hk. right. apply IH2, Hk.
Qed.

Lemma laid_out_keys e : NoDup (map fst e) -> NoDup (map fst (laid_out e)).
Proof.
  intros Hnd. unfold laid_out. rewrite map_app.
  assert (Hvars : NoDup provider_vars).
  { unfold provider_vars. repeat constructor; simpl; intuition discriminate. }
  destruct (provider_part_keys e provider_vars Hvars) as [H1 H2].
  apply NoDup_app.
  - exact H1.
  - rewrite filter_keys. apply NoDup_filter, Hnd.
  - intros k Hk Hk'. apply H2 in Hk.
    rewrite filter_keys in Hk'. apply filter_In in Hk'. destruct Hk' as [_ Hk'].
    apply negb_true_iff in Hk'. unfold is_provider_var in Hk'.
    assert (existsb (String.eqb k) provider_vars = true).
    { apply existsb_exists. exists k. split; [exact Hk|apply String.eqb_refl]. }
    congruence.
Qed.

Lemma read_written e :
  wf_env e -> readExistingEnv (Some (writeEnvFile e)) = laid_out e.
Proof.
  intros Hwf. destruct (parsed_env_lines e Hwf) as [Hp Hl].
  unfold readExistingEnv, writeEnvFile.
  rewrite split_join; [|unfold env_lines; discriminate|exact Hl].
  rewrite read_parsed, Hp.
  apply (set_all_fresh (laid_out e) []). simpl.
  apply laid_out_keys. destruct Hwf as [Hnd _]. exact Hnd.
Qed.

Example write_read_example :
  readExistingEnv
    (Some (writeEnvFile [ ("PORT", "8080"); ("KIMI_API_KEY", "");
                          ("DEEPSEEK_API_KEY", "sk-1"); ("API_BASE", "http://x") ]))
  = [ ("DEEPSEEK_API_KEY", "sk-1"); ("PORT", "8080"); ("API_BASE", "http://x") ].
Proof. reflexivity. Qed.

(** ** Carriage returns *)

Lemma dots_cr v : dots (v ++ String carriage_return "") = false.
Proof.
  induction v as [|c v IH]; [reflexivity|].
  change (String c v ++ String carriage_return "")%string
    with (String c (v ++ String carriage_return "")).
  cbn [dots]. rewrite IH. apply andb_false_r.
Qed.

Lemma span_key_cr l :
  exists k rest, span_key (l ++ String carriage_return "")
                 = (k, (rest ++ String carriage_return "")%string).
Proof.
  induction l as [|c l (k & rest & IH)].
  - exists "", "". reflexivity.
  - change (String c l ++ String carriage_return "")%string
      with (String c (l ++ String carriage_return "")).
    cbn [span_key]. destruct (key_char c).
    + rewrite IH. exists (String c k), rest. reflexivity.
    + exists "", (String c l). reflexivity.
Qed.

Lemma match_line_cr l : match_line (l ++ String carriage_return "") = None.
Proof.
  unfold match_line. destruct (span_key_cr l) as (k & rest & ->).
  destruct k as [|c k]; [reflexivity|].
  destruct rest as [|e v].
  - reflexivity.
  - change (String e v ++ String carriage_return "")%string
      with (String e (v ++ String carriage_return "")).
    cbv beta iota. rewrite dots_cr, andb_false_r. reflexivity.
Qed.

Lemma skipping_reads file :
  main file "" "" "" "" = writeEnvFile (readExistingEnv file).
Proof. reflexivity. Qed.

(** X14: when every line of the existing file ends with a carriage
    return (a file with CRLF line ends), no line matches the pattern of
    [readExistingEnv]: the file is read as if it held no setting, and a
    run of [main] in which every prompt is skipped overwrites it with
    the bare header, losing all its settings. *)
Theorem X14_crlf_file_reads_empty content :
  Forall crlf_line (split_lines content) ->
  readExistingEnv (Some content) = []
  /\ main (Some content) "" "" "" "" = writeEnvFile [].
Proof.
  intros H.
  assert (Hr : readExistingEnv (Some content) = []).
  { unfold readExistingEnv. rewrite read_parsed.
    assert (Hp : parsed (split_lines content) = []).
    { unfold parsed. induction H as [|l ls Hl _ IH]; [reflexivity|].
      cbn [flat_map]. rewrite IH.
      destruct Hl as [-> | (l' & ->)]; [reflexivity|].
      rewrite match_line_cr. reflexivity. }
    rewrite Hp. reflexivity. }
  split; [exact Hr|]. rewrite skipping_reads, Hr. reflexivity.
Qed.

Lemma X14_crlf_file_reads_empty_witness :
  readExistingEnv
    (Some ("DEEPSEEK_API_KEY=sk-1"
           ++ String carriage_return (String newline
                ("PORT=8080" ++ String carriage_return (String newline ""))))%string)
  = [].
Proof.
  apply X14_crlf_file_reads_empty.
  apply Forall_cons; [right; exists "DEEPSEEK_API_KEY=sk-1"; reflexivity|].
  apply Forall_cons; [right; exists "PORT=8080"; reflexivity|].
  apply Forall_cons; [left; reflexivity|].
  apply Forall_nil.
Defined.

(** ** Running the script again *)

Lemma env_get_cons k k' v e :
  env_get k ((k', v) :: e) = if k' =? k then Some v else env_get k e.
Proof. unfold env_get. simpl. destruct (k' =? k); reflexivity. Qed.

Lemma get_past_provider_part e vars k rest :
  ~ In k vars ->
  env_get k (provider_part e vars ++ rest) = env_get k rest.
Proof.
  induction vars as [|x vars IH]; intros Hk; [reflexivity|].
  unfold provider_part in *. cbn [flat_map]. rewrite <- app_assoc.
  assert (Hx : (x =? k) = false) by (apply String.eqb_neq; intros ->; apply Hk; left; reflexivity).
  assert (IH' := IH (fun H => Hk (or_intror H))).
  destruct (env_get x e) as [v|]; [destruct (truthy v)|]; cbn [app]; auto.
  rewrite env_get_cons, Hx. exact IH'.
Qed.

Lemma get_in_provider_part e vars var rest :
  NoDup vars -> In var vars ->
  env_get var (provider_part e vars ++ rest)
  = match env_get var e with
    | Some v => if truthy v then Some v else env_get var rest
    | None => env_get var rest
    end.
Proof.
  induction vars as [|x vars IH]; intros Hnd Hin; [contradiction|].
  inversion Hnd as [|? ? Hx Hvars]; subst.
  destruct (String.eqb_spec x var) as [-> | Hne].
  - unfold provider_part. cbn [flat_map]. rewrite <- app_assoc.
    fold (provider_part e vars).
    destruct (env_get var e) as [v|]; [destruct (truthy v)|]; cbn [app].
    + rewrite env_get_cons, String.eqb_refl. reflexivity.
    + apply get_past_provider_part, Hx.
    + apply get_past_provider_part, Hx.
  - destruct Hin as [Heq | Hin]; [contradiction|].
    unfold provider_part. cbn [flat_map]. rewrite <- app_assoc.
    fold (provider_part e vars).
    apply String.eqb_neq in Hne.
    destruct (env_get x e) as [v|]; [destruct (truthy v)|]; cbn [app];
      rewrite ?env_get_cons, ?Hne; apply IH; assumption.
Qed.

Lemma get_filtered k (e : env) :
  env_get k (filter (fun kv => negb (is_provider_var (fst kv))) e)
  = if is_provider_var k then None else env_get k e.
Proof.
  induction e as [|[k' v] e IH]; [destruct (is_provider_var k); reflexivity|].
  cbn [filter fst]. destruct (is_provider_var k') eqn:Hk'; cbn [negb].
  - rewrite IH, env_get_cons.
    destruct (String.eqb_spec k' k) as [-> | _]; [rewrite Hk'|]; reflexivity.
  - rewrite !env_get_cons, IH.
    destruct (String.eqb_spec k' k) as [-> | _]; [rewrite Hk'|]; reflexivity.
Qed.

Lemma provider_vars_nodup : NoDup provider_vars.
Proof. unfold provider_vars. repeat constructor; simpl; intuition discriminate. Qed.

Lemma is_provider_var_in k : is_provider_var k = true <-> In k provider_vars.
Proof.
  unfold is_provider_var. rewrite existsb_exists. split.
  - intros (x & Hx & E). apply String.eqb_eq in E. subst. exact Hx.
  - intros H. exists k. split; [exact H|apply String.eqb_refl].
Qed.

Lemma get_laid_out k e :
  env_get k (laid_out e)
  = if is_provider_var k
    then match env_get k e with
         | Some v => if truthy v then Some v else None
         | None => None
         end
    else env_get k e.
Proof.
  unfold laid_out.
  destruct (is_provider_var k) eqn:Hk.
  - rewrite get_in_provider_part;
      [|apply provider_vars_nodup|apply is_provider_var_in, Hk].
    rewrite get_filtered, Hk. reflexivity.
  - rewrite get_past_provider_part, get_filtered, Hk; [reflexivity|].
    intros Hin. apply is_provider_var_in in Hin. congruence.
Qed.

(** X13: for an environment with distinct names made of capital letters
    and underscores and with values that hold no line terminator,
    reading back the file that [writeEnvFile] writes gives every setting
    again with its value, in the order of the file: the provider keys
    that are set and not empty first, then the other settings in their
    former order.  Looked up by name, every setting has the value it
    had, except that a provider key with an empty value is gone. *)
Theorem X13_write_then_read e k :
  wf_env e ->
  readExistingEnv (Some (writeEnvFile e)) = laid_out e
  /\ env_get k (readExistingEnv (Some (writeEnvFile e)))
     = if is_provider_var k
       then match env_get k e with
            | Some v => if truthy v then Some v else None
            | None => None
            end
       else env_get k e.
Proof.
  intros Hwf. rewrite (read_written e Hwf). split; [reflexivity|].
  apply get_laid_out.
Qed.

Lemma X13_write_then_read_witness :
  readExistingEnv
    (Some (writeEnvFile [ ("PORT", "8080"); ("KIMI_API_KEY", "");
                          ("DEEPSEEK_API_KEY", "sk-1"); ("API_BASE", "http://x") ]))
  = laid_out [ ("PORT", "8080"); ("KIMI_API_KEY", "");
               ("DEEPSEEK_API_KEY", "sk-1"); ("API_BASE", "http://x") ].
Proof.
  apply (X13_write_then_read
           [ ("PORT", "8080"); ("KIMI_API_KEY", "");
             ("DEEPSEEK_API_KEY", "sk-1"); ("API_BASE", "http://x") ] "PORT").
  split.
  - repeat constructor; simpl; intuition discriminate.
  - repeat constructor.
Defined.

Lemma key_lines_laid_out comment var e :
  is_provider_var var = true ->
  key_lines comment var (laid_out e) = key_lines comment var e.
Proof.
  intros Hv. unfold key_lines. rewrite get_laid_out, Hv.
  destruct (env_get var e) as [v|]; [|reflexivity].
  destruct (truthy v) eqn:Ht; [rewrite Ht|]; reflexivity.
Qed.

Lemma otherKeys_laid_out e : otherKeys (laid_out e) = otherKeys e.
Proof.
  unfold otherKeys, laid_out.
  rewrite map_app, filter_app, filter_keys.
  assert (H1 : filter (fun k => negb (is_provider_var k))
                 (map fst (provider_part e provider_vars)) = []).
  { destruct (provider_part_keys e provider_vars provider_vars_nodup) as [_ Hincl].
    induction (map fst (provider_part e provider_vars)) as [|k ks IH]; [reflexivity|].
    cbn [filter].
    assert (Hk : is_provider_var k = true)
      by (apply is_provider_var_in, Hincl; left; reflexivity).
    rewrite Hk. cbn [negb]. apply IH. intros x Hx. apply Hincl. right. exact Hx. }
  rewrite H1. cbn [app].
  induction (map fst e) as [|k ks IH]; [reflexivity|].
  cbn [filter]. destruct (negb (is_provider_var k)) eqn:Hk; cbn [filter];
    rewrite ?Hk, IH; reflexivity.
Qed.

Lemma env_lines_laid_out e : env_lines (laid_out e) = env_lines e.
Proof.
  unfold env_lines, other_lines.
  rewrite !key_lines_laid_out by reflexivity.
  rewrite otherKeys_laid_out.
  assert (Hmap : map (fun k => (k ++ "=" ++ HistoryTab.show (env_get k (laid_out e)))%string)
                     (otherKeys e)
                 = map (fun k => (k ++ "=" ++ HistoryTab.show (env_get k e))%string)
                       (otherKeys e)).
  { apply map_ext_in. intros k Hk. unfold otherKeys in Hk.
    apply filter_In in Hk. destruct Hk as [_ Hk]. apply negb_true_iff in Hk.
    rewrite get_laid_out, Hk. reflexivity. }
  rewrite Hmap. reflexivity.
Qed.

(** X15: running the script again on a file that it wrote and skipping
    every prompt writes the same file, byte for byte: no setting is
    lost, duplicated or moved by a second run. *)
Theorem X15_second_run_is_stable e :
  wf_env e ->
  main (Some (writeEnvFile e)) "" "" "" "" = writeEnvFile e.
Proof.
  intros Hwf.
  rewrite skipping_reads, (read_written e Hwf). unfold writeEnvFile.
  rewrite env_lines_laid_out. reflexivity.
Qed.

Lemma X15_second_run_is_stable_witness :
  main (Some (writeEnvFile [ ("PORT", "8080"); ("KIMI_API_KEY", "");
                             ("DEEPSEEK_API_KEY", "sk-1") ])) "" "" "" ""
  = writeEnvFile [ ("PORT", "8080"); ("KIMI_API_KEY", "");
                   ("DEEPSEEK_API_KEY", "sk-1") ].
Proof.
  apply X15_second_run_is_stable. split.
  - repeat constructor; simpl; intuition discriminate.
  - repeat constructor.
Defined.

End ConfigureExtras.
